(** * Clueless: the content fetcher of [src/utils/utils.py]

    A shallow embedding of [check_data_url] and [get_content] and of the
    library calls they make ([re.match] on the data-URL pattern,
    [base64.b64decode], the aiohttp session), followed by the properties of
    the fetcher.

    Conventions.
    - A Python [str] is a [string]; a character is a code point below 256.
    - A Python [bytes] is a [list byte].
    - A call either returns a value or raises: [outcome].
    - The network is a function from the requested URL to what
      [session.get(url)] produces; [get_content] also reports the URLs it
      handed to [session.get], so that "no request was made" can be stated. *)

From Stdlib Require Import String Ascii List ZArith NArith Bool Lia.
From Stdlib Require Import DecimalString DecimalZ.
From Stdlib.Init Require Import Byte.
From Stdlib Require Floats Uint63.
Import ListNotations.
Local Open Scope string_scope.

(** ** Python values, exceptions and outcomes *)

Module Python.

(** The exceptions that can travel through [get_content].  The aiohttp
    classes are those the [except] clauses of [get_content] tell apart;
    [ServerTimeoutError] inherits from both [ClientConnectionError] (through
    [ServerConnectionError]) and [asyncio.TimeoutError];
    [ClientConnectionError] stands for itself and its other subclasses
    (connection refused, DNS failure, server disconnected);
    [binascii_Error] and [JSONDecodeError] are what the base64 decoder
    and [r.json()] raise on input they cannot decode;
    [OtherException] is any exception of a class unrelated to the three
    that are caught ([TooManyRedirects], [ContentTypeError],
    [ClientPayloadError], ...). *)
Inductive exn : Type :=
| ValueError (msg : string)
| TypeError (msg : string)
| KeyError (key : string)
| BadResponseError (msg : string)
| binascii_Error (msg : string)
| JSONDecodeError (msg : string)
| InvalidURL
| asyncio_TimeoutError
| ServerTimeoutError
| ClientConnectionError
| OtherException (name : string).

(** The classes named in the [except] clauses. *)
Inductive exn_class : Type :=
| cls_InvalidURL
| cls_TimeoutError
| cls_ClientConnectionError.

Definition isinstance (e : exn) (c : exn_class) : bool :=
  match c, e with
  | cls_InvalidURL, InvalidURL => true
  | cls_TimeoutError, asyncio_TimeoutError => true
  | cls_TimeoutError, ServerTimeoutError => true
  | cls_ClientConnectionError, ClientConnectionError => true
  | cls_ClientConnectionError, ServerTimeoutError => true
  | _, _ => false
  end.

Inductive outcome (A : Type) : Type :=
| Return (a : A)
| Raise (e : exn).
Arguments Return {A} a.
Arguments Raise {A} e.

Definition bind {A B : Type} (o : outcome A) (k : A -> outcome B) : outcome B :=
  match o with
  | Return a => k a
  | Raise e => Raise e
  end.

Definition fmap {A B : Type} (f : A -> B) (o : outcome A) : outcome B :=
  bind o (fun a => Return (f a)).

#[local] Set Warnings "-register-all".

(** A parsed JSON document, as [r.json()] hands it back (numbers are kept
    as integers: no property below looks inside a document). *)
Inductive json : Type :=
| JNull
| JBool (b : bool)
| JNum (z : Z)
| JStr (s : string)
| JArr (l : list json)
| JObj (l : list (string * json)).

(** What [check_data_url] and [get_content] can return. *)
Inductive value : Type :=
| VNone
| VBytes (b : list byte)
| VStr (s : string)
| VJson (j : json).

(** Truth value of an object in [if data:]; only asked of what
    [check_data_url] returns ([None], [bytes] or [str]). *)
Definition truthy (v : value) : bool :=
  match v with
  | VNone => false
  | VBytes [] => false
  | VBytes (_ :: _) => true
  | VStr EmptyString => false
  | VStr (String _ _) => true
  | VJson JNull => false
  | VJson (JBool b) => b
  | VJson (JNum z) => negb (Z.eqb z 0)
  | VJson (JStr EmptyString) => false
  | VJson (JStr (String _ _)) => true
  | VJson (JArr []) => false
  | VJson (JArr (_ :: _)) => true
  | VJson (JObj []) => false
  | VJson (JObj (_ :: _)) => true
  end.

(** [needle in hay] on two strings. *)
Fixpoint str_in (needle hay : string) : bool :=
  prefix needle hay ||
  match hay with
  | EmptyString => false
  | String _ rest => str_in needle rest
  end.

(** [needle in hay] where [hay] may be [None]: [None] has no
    [__contains__] and is not iterable. *)
Definition py_in (needle : string) (hay : option string) : outcome bool :=
  match hay with
  | Some h => Return (str_in needle h)
  | None => Raise (TypeError "argument of type 'NoneType' is not iterable")
  end.

(** [str(n)], also what an f-string prints for an [int] field. *)
Definition str_of_int (n : Z) : string :=
  NilZero.string_of_int (Z.to_int n).

End Python.
Export Python.

(** ** [re.match] on the data-URL pattern *)

Module Regex.

Definition code (c : ascii) : N := N_of_ascii c.

Definition between (lo hi n : N) : bool := (lo <=? n)%N && (n <=? hi)%N.

(** [\w] on a [str] pattern: the alphanumeric characters and the
    underscore.  Below 128 these are the digits and the letters; from 128
    to 255 they are the Latin-1 letters, the superscript digits and the
    vulgar fractions. *)
Definition is_word (c : ascii) : bool :=
  let n := code c in
  between 48 57 n || between 65 90 n || (n =? 95)%N || between 97 122 n
  || (n =? 170)%N || between 178 179 n || (n =? 181)%N
  || between 185 186 n || between 188 190 n
  || between 192 214 n || between 216 246 n || between 248 255 n.

(** The class [[\w\/\+-]] of the media type. *)
Definition is_mime_char (c : ascii) : bool :=
  is_word c || Ascii.eqb c "/" || Ascii.eqb c "+" || Ascii.eqb c "-".

(** The class [[\w-]] of the charset name. *)
Definition is_charset_char (c : ascii) : bool :=
  is_word c || Ascii.eqb c "-".

(** [.] without [re.DOTALL]: anything but a line feed. *)
Definition is_dot (c : ascii) : bool := negb (Ascii.eqb c "010").

(** The longest prefix of [s] in the class [p], and what follows it: a
    greedy [[p]*]. *)
Fixpoint span (p : ascii -> bool) (s : string) : string * string :=
  match s with
  | EmptyString => (EmptyString, EmptyString)
  | String c rest =>
      if p c then let (a, b) := span p rest in (String c a, b)
      else (EmptyString, s)
  end.

(** [s] without its prefix [p], when it has it: a literal. *)
Fixpoint strip (p s : string) : option string :=
  match p, s with
  | EmptyString, _ => Some s
  | String a p', String b s' => if Ascii.eqb a b then strip p' s' else None
  | String _ _, EmptyString => None
  end.

(** The four groups of a match. *)
Record groups : Type := mkGroups {
  g_mime : string;               (* groups[0], the media type  *)
  g_charset : option string;     (* groups[1], the charset     *)
  g_encoding : option string;    (* groups[2], the base64 flag *)
  g_data : string                (* groups[3], the payload     *)
}.

(** The optional group [( ;charset= [\w-]+ )?] at the start of [s]: its
    text when it takes part, and what is left of [s]. *)
Definition charset_group (s : string) : option string * string :=
  match strip ";charset=" s with
  | Some t =>
      match span is_charset_char t with
      | (EmptyString, _) => (None, s)
      | (name, t') => (Some (";charset=" ++ name), t')
      end
  | None => (None, s)
  end.

(** The optional group [( ;base64 )?], likewise. *)
Definition encoding_group (s : string) : option string * string :=
  match strip ";base64" s with
  | Some t => (Some ";base64", t)
  | None => (None, s)
  end.

(** [re.match(data_url_regex, url)], where the pattern reads (blanks added
    between its pieces)

      ^data:  ( [\w\/\+-]* )  ( ;charset= [\w-]+ )?  ( ;base64 )?  ,  ( .* )

    [None] when there is no match, the groups otherwise (a group that did
    not take part is [None]).

    The pattern is matched left to right without any choice left open: a
    character class run can only be followed by [;] or [,], which are in
    neither class, so giving back characters of a run never helps; an
    optional group that can match must match, because what follows it
    cannot start with the same text; and nothing follows the last group, which
    therefore takes all there is up to the first line feed
    ([data_url_match_sound] and [data_url_match_complete] below). *)
Definition data_url_match (url : string) : option groups :=
  match strip "data:" url with
  | None => None
  | Some s1 =>
      let (mime, s2) := span is_mime_char s1 in
      let (charset, s3) := charset_group s2 in
      let (encoding, s4) := encoding_group s3 in
      match s4 with
      | String "," s5 =>
          Some (mkGroups mime charset encoding (fst (span is_dot s5)))
      | _ => None
      end
  end.

End Regex.
Export Regex.

(** ** [base64.b64decode] and [base64.b64encode] *)

Module Base64.

(** [table_a2b_base64]: the value of a character of the alphabet, [None]
    for any other character (the padding sign included). *)
Definition b64_value (c : ascii) : option N :=
  let n := code c in
  if between 65 90 n then Some (n - 65)%N
  else if between 97 122 n then Some (n - 97 + 26)%N
  else if between 48 57 n then Some (n - 48 + 52)%N
  else if (n =? 43)%N then Some 62%N
  else if (n =? 47)%N then Some 63%N
  else None.

(** A store into an [unsigned char]: the low eight bits. *)
Definition to_byte (n : N) : byte := byte_of_ascii (ascii_of_N n).

(** The message of the error raised when one character is left over. *)
Definition invalid_length_msg (written : nat) : string :=
  "Invalid base64-encoded string: number of data characters ("
  ++ str_of_int (Z.of_nat (written / 3 * 4 + 1))
  ++ ") cannot be 1 more than a multiple of 4".

(** The loop of [binascii.a2b_base64] (CPython 3.11 and later) with
    [strict_mode] off, over the characters still to read.  [quad_pos] is the position in the current
    group of four, [leftchar] the bits carried over, [pads] the padding
    signs seen since the last character of the alphabet, [out] the bytes
    written so far, last first.  A padding sign that completes a group
    ends the decoding at once; a character outside the alphabet is
    skipped; at the end of the input an unfinished group is an error. *)
Fixpoint a2b_loop (s : string) (quad_pos leftchar pads : N) (out : list byte)
  : outcome (list byte) :=
  match s with
  | EmptyString =>
      if (quad_pos =? 0)%N then Return (rev out)
      else if (quad_pos =? 1)%N
      then Raise (binascii_Error (invalid_length_msg (List.length out)))
      else Raise (binascii_Error "Incorrect padding")
  | String c rest =>
      if Ascii.eqb c "=" then
        if (2 <=? quad_pos)%N then
          if (4 <=? quad_pos + (pads + 1))%N then Return (rev out)
          else a2b_loop rest quad_pos leftchar (pads + 1)%N out
        else a2b_loop rest quad_pos leftchar pads out
      else
        match b64_value c with
        | None => a2b_loop rest quad_pos leftchar pads out
        | Some this_ch =>
            if (quad_pos =? 0)%N then
              a2b_loop rest 1%N this_ch 0%N out
            else if (quad_pos =? 1)%N then
              a2b_loop rest 2%N (N.land this_ch 15) 0%N
                (to_byte (N.lor (N.shiftl leftchar 2) (N.shiftr this_ch 4)) :: out)
            else if (quad_pos =? 2)%N then
              a2b_loop rest 3%N (N.land this_ch 3) 0%N
                (to_byte (N.lor (N.shiftl leftchar 4) (N.shiftr this_ch 2)) :: out)
            else
              a2b_loop rest 0%N 0%N 0%N
                (to_byte (N.lor (N.shiftl leftchar 6) this_ch) :: out)
        end
  end.

Definition a2b_base64 (s : string) : outcome (list byte) :=
  a2b_loop s 0%N 0%N 0%N [].

(** [s.encode('ascii')] succeeds. *)
Fixpoint is_ascii (s : string) : bool :=
  match s with
  | EmptyString => true
  | String c rest => (code c <? 128)%N && is_ascii rest
  end.

(** [base64.b64decode(s)] on a [str], [validate] left at [False]. *)
Definition b64decode (s : string) : outcome (list byte) :=
  if is_ascii s then a2b_base64 s
  else Raise (ValueError "string argument should contain only ASCII characters").

(** [table_b2a_base64]. *)
Definition b64_alphabet : string :=
  "ABCDEFGHIJKLMNOPQRSTUVWXYZabcdefghijklmnopqrstuvwxyz0123456789+/".

Definition b64_char (v : N) : ascii :=
  match String.get (N.to_nat v) b64_alphabet with
  | Some c => c
  | None => "="%char
  end.

(** [base64.b64encode(bs).decode()]: three bytes give four characters; a
    last group of one or two bytes is padded. *)
Fixpoint b64encode (bs : list byte) : string :=
  match bs with
  | [] => EmptyString
  | [x] =>
      let a := Byte.to_N x in
      String (b64_char (N.shiftr a 2))
        (String (b64_char (N.shiftl (N.land a 3) 4)) "==")
  | [x; y] =>
      let a := Byte.to_N x in
      let b := Byte.to_N y in
      String (b64_char (N.shiftr a 2))
        (String (b64_char (N.lor (N.shiftl (N.land a 3) 4) (N.shiftr b 4)))
           (String (b64_char (N.shiftl (N.land b 15) 2)) "="))
  | x :: y :: z :: rest =>
      let a := Byte.to_N x in
      let b := Byte.to_N y in
      let c := Byte.to_N z in
      String (b64_char (N.shiftr a 2))
        (String (b64_char (N.lor (N.shiftl (N.land a 3) 4) (N.shiftr b 4)))
           (String (b64_char (N.lor (N.shiftl (N.land b 15) 2) (N.shiftr c 6)))
              (String (b64_char (N.land c 63)) (b64encode rest))))
  end.

End Base64.
Export Base64.

(** ** The aiohttp session *)

Module Aiohttp.

(** [s.lower()] on the ASCII letters: header names are compared without
    regard to case. *)
Definition lower_char (c : ascii) : ascii :=
  if between 65 90 (code c) then ascii_of_N (code c + 32) else c.

Fixpoint lower (s : string) : string :=
  match s with
  | EmptyString => EmptyString
  | String c rest => String (lower_char c) (lower rest)
  end.

(** [headers[key]] on the case-insensitive multi-dict of a response: the
    first value stored under the key, [KeyError] when there is none. *)
Fixpoint headers_getitem (headers : list (string * string)) (key : string)
  : outcome string :=
  match headers with
  | [] => Raise (KeyError key)
  | (k, v) :: rest =>
      if String.eqb (lower k) (lower key) then Return v
      else headers_getitem rest key
  end.

(** A response as [get_content] looks at it: the status line, the headers,
    and what awaiting [r.read()] and [r.json()] gives. *)
Record ClientResponse : Type := mkResponse {
  status : Z;
  headers : list (string * string);
  read : outcome (list byte);
  json_body : outcome json
}.

(** What [session.get(url)] produces for each URL: a response, or the
    exception raised while connecting or reading the status line. *)
Definition Network : Type := string -> outcome ClientResponse.

End Aiohttp.
Export Aiohttp.

(** ** The two functions of the fetcher *)

(** [check_data_url(url)]. *)
Definition check_data_url (url : string) : outcome value :=
  match data_url_match url with
  | None => Return VNone
  | Some groups =>
      let mime_type := g_mime groups in
      let encoding := g_encoding groups in
      let data := g_data groups in
      if negb (str_in "image" mime_type)
      then Raise (ValueError "Only images are supported with data URLs.")
      else
        bind (py_in "base64" encoding) (fun is_base64 =>
        if is_base64 then fmap VBytes (b64decode data)
        else Return (VStr data))
  end.

(** The body of [async with session.get(url) as r:]. *)
Definition read_response (r : ClientResponse) (content_type : string)
  : outcome value :=
  if (status r =? 200)%Z then
    if String.eqb content_type "json" then fmap VJson (json_body r)
    else if String.eqb content_type "bytes" then fmap VBytes (read r)
    else if String.eqb content_type "image" then
      bind (headers_getitem (headers r) "content-type") (fun content_type' =>
      if negb (str_in "image" content_type')
      then Raise (ValueError "The URL doesn't contain any image.")
      else fmap VBytes (read r))
    else Return VNone
  else Raise (BadResponseError
                ("The URL leads to an error " ++ str_of_int (status r))).

(** The three [except] clauses, tried in the order they are written; an
    exception of no listed class goes on to the caller. *)
Definition except_clauses (o : outcome value) : outcome value :=
  match o with
  | Return v => Return v
  | Raise e =>
      if isinstance e cls_InvalidURL
      then Raise (ValueError "The URL provided is invalid.")
      else if isinstance e cls_TimeoutError
      then Raise (ValueError "Couldn't connect to URL. (Timeout)")
      else if isinstance e cls_ClientConnectionError
      then Raise (ValueError "Couldn't connect to URL.")
      else Raise e
  end.

(** The [try] statement of [get_content]: one GET, then the response is
    read according to [content_type]. *)
Definition fetch_remote (net : Network) (url content_type : string)
  : outcome value :=
  except_clauses (bind (net url) (fun r => read_response r content_type)).

(** One run of [get_content]: the URLs handed to [session.get], in order,
    and how the call ended. *)
Record run : Type := mkRun {
  requests : list string;
  result : outcome value
}.

(** [get_content(url, content_type)], with no extra keyword argument.
    [content_type] is compared with [==] against three strings; a value
    that is not a string behaves as a string equal to none of them. *)
Definition get_content (net : Network) (url content_type : string) : run :=
  match check_data_url url with
  | Raise e => mkRun [] (Raise e)
  | Return data =>
      if truthy data then mkRun [] (Return data)
      else mkRun [url] (fetch_remote net url content_type)
  end.

(** ** The other helpers of the module *)

(** The built-ins the helpers call. *)
Module Builtins.

(** A [str] that may hold any code point: the list of its code points. *)
Definition ustr : Type := list N.

(** [range(n)]. *)
Definition py_range (n : Z) : list Z := map Z.of_nat (seq 0 (Z.to_nat n)).

(** [divmod(a, b)] on two [int]s: floor division and the remainder that
    has the sign of the divisor. *)
Definition py_divmod (a b : Z) : outcome (Z * Z) :=
  if (b =? 0)%Z then Raise (OtherException "ZeroDivisionError")
  else Return ((a / b)%Z, (a mod b)%Z).

(** A bound of a slice brought into [0 .. len]: a negative bound counts
    from the end. *)
Definition slice_index (len i : Z) : Z :=
  if (i <? 0)%Z then Z.max (i + len) 0 else Z.min i len.

(** [a[lo:hi]] on a list. *)
Definition py_slice {A : Type} (a : list A) (lo hi : Z) : list A :=
  let len := Z.of_nat (List.length a) in
  let start := slice_index len lo in
  let stop := slice_index len hi in
  firstn (Z.to_nat (stop - start)) (skipn (Z.to_nat start) a).

(** The characters of [s] at the positions [wait], [wait + step],
    [wait + 2 * step], ... *)
Fixpoint every (step wait : nat) (s : string) : string :=
  match s with
  | EmptyString => EmptyString
  | String c rest =>
      match wait with
      | O => String c (every step (step - 1) rest)
      | S w => every step w rest
      end
  end.

(** [s[start::step]] for a positive [step]. *)
Definition str_slice_step (s : string) (start : Z) (step : nat) : string :=
  every step (Z.to_nat (slice_index (Z.of_nat (String.length s)) start)) s.

(** A [bool] used as a number. *)
Definition int_of_bool (b : bool) : Z := if b then 1%Z else 0%Z.

(** A number handed to arithmetic: an [int] or a [float]. *)
Inductive number : Type :=
| Int (z : Z)
| Float (f : PrimFloat.float).

(** A result of arithmetic in binary64 handed back to Python: a finite
    value as the float it is, an infinite one as [OverflowError]. *)
Definition checked_float (x : SpecFloat.spec_float)
  : outcome PrimFloat.float :=
  match x with
  | SpecFloat.S754_infinity _ => Raise (OtherException "OverflowError")
  | _ => Return (FloatOps.SF2Prim x)
  end.

(** [float(z)] for any [int], as the arithmetic converts an [int]
    operand: the nearest float, ties to even, [OverflowError] when it
    would be out of range. *)
Definition float_of_int (z : Z) : outcome PrimFloat.float :=
  checked_float (SpecFloat.binary_normalize 53 1024 z 0 false).

(** [a / b] on two [int]s: the quotient of the two integers rounded once
    to the nearest float, ties to even (the quotient is taken with 55
    bits or more, and what the remainder says of the part cut off is
    handed to the rounding); [ZeroDivisionError] for a zero divisor,
    [OverflowError] when the result would be out of range. *)
Definition int_true_div (a b : Z) : outcome PrimFloat.float :=
  if (b =? 0)%Z then Raise (OtherException "ZeroDivisionError")
  else
    let negate := xorb (a <? 0)%Z (b <? 0)%Z in
    let x := Z.abs a in
    let y := Z.abs b in
    if (x =? 0)%Z then Return (FloatOps.SF2Prim (SpecFloat.S754_zero negate))
    else
      let k := Z.max 0 (55 + Z.log2 y - Z.log2 x) in
      let n := Z.shiftl x k in
      let q := (n / y)%Z in
      let r := (n mod y)%Z in
      let loc :=
        if (r =? 0)%Z then SpecFloat.loc_Exact
        else SpecFloat.loc_Inexact (Z.compare (2 * r) y) in
      checked_float (SpecFloat.binary_round_aux 53 1024 negate q (- k) loc).

(** [x / 100] for a number [x]: a [float] is divided by the float 100. *)
Definition div_100 (x : number) : outcome PrimFloat.float :=
  match x with
  | Int z => int_true_div z 100
  | Float f => Return (PrimFloat.div f (PrimFloat.of_uint63 (Uint63.of_Z 100)))
  end.

(** [int(f)] on a [float]: the integral part, towards zero. *)
Definition int_of_float (f : PrimFloat.float) : outcome Z :=
  match FloatOps.Prim2SF f with
  | SpecFloat.S754_zero _ => Return 0%Z
  | SpecFloat.S754_finite false m e => Return (Z.shiftl (Z.pos m) e)
  | SpecFloat.S754_finite true m e => Return (- Z.shiftl (Z.pos m) e)%Z
  | SpecFloat.S754_infinity _ => Raise (OtherException "OverflowError")
  | SpecFloat.S754_nan =>
      Raise (ValueError "cannot convert float NaN to integer")
  end.

(** [d.get(key)] on a dict written as a literal, its items in the order
    they are written: a key written twice keeps its last value. *)
Fixpoint dict_get {V : Type} (d : list (string * V)) (key : string)
  : option V :=
  match d with
  | [] => None
  | (k, v) :: rest =>
      match dict_get rest key with
      | Some v' => Some v'
      | None => if String.eqb k key then Some v else None
      end
  end.

End Builtins.
Export Builtins.

(** [make_progress_bar]: the cell that is filled is a zero-width space
    (U+200B) followed by a full block (U+2588), the one that is not is a
    blank. *)
Definition full : ustr := [8203%N; 9608%N].
Definition empty : ustr := [32%N].

(** [int((percentage / 100) * nb_char)]. *)
Definition bar_index (percentage : number) (nb_char : Z) : outcome Z :=
  bind (div_100 percentage) (fun ratio =>
  bind (float_of_int nb_char) (fun width =>
  int_of_float (PrimFloat.mul ratio width))).

(** One turn of the loop over [range(nb_char)]. *)
Definition bar_step (bar_idx : Z) (res_bar : ustr) (i : Z) : ustr :=
  if (i <? bar_idx)%Z then (res_bar ++ full)%list
  else (res_bar ++ empty)%list.

(** [make_progress_bar(percentage, nb_char)]. *)
Definition make_progress_bar (percentage : number) (nb_char : Z)
  : outcome ustr :=
  bind (bar_index percentage nb_char) (fun bar_idx =>
  Return (fold_left (bar_step bar_idx) (py_range nb_char) [])).

(** [make_progress_bar(percentage)], [nb_char] left at its default. *)
Definition make_progress_bar_default (percentage : number) : outcome ustr :=
  make_progress_bar percentage 20.

(** [ordinal(n)] on an [int]: the operators [*] and [%] group from the
    left, so the index of the slice is the product taken modulo ten. *)
Definition ordinal_index (n : Z) : Z :=
  ((int_of_bool (negb ((n / 10) mod 10 =? 1)%Z)
    * int_of_bool (n mod 10 <? 4)%Z * n) mod 10)%Z.

Definition ordinal (n : Z) : string :=
  str_of_int n ++ str_slice_step "tsnrhtdd" (ordinal_index n) 4.

(** [chunk(a, n)]. *)
Definition chunk {A : Type} (a : list A) (n : Z) : outcome (list (list A)) :=
  bind (py_divmod (Z.of_nat (List.length a)) n) (fun km =>
  let k := fst km in
  let m := snd km in
  Return (map (fun i => py_slice a (i * k + Z.min i m)
                                  ((i + 1) * k + Z.min (i + 1) m))%Z
              (py_range n))).

(** A flag emoji: the two regional indicator symbols (U+1F1E6 for A to
    U+1F1FF for Z) of the letters of a country code. *)
Definition regional_indicator (c : ascii) : N := (127462 + (code c - 65))%N.

Definition flag (country : string) : option ustr :=
  Some (map regional_indicator (list_ascii_of_string country)).

(** [LANG2FLAG], each flag written by its two letters. *)
Definition LANG2FLAG : list (string * option ustr) :=
  [
  ("af", flag "ZA"); ("sq", flag "AL"); ("am", flag "ET");
  ("ar", flag "DJ"); ("hy", flag "AM"); ("az", flag "AZ");
  ("eu", flag "ES"); ("be", flag "BY"); ("bn", flag "BD");
  ("bs", flag "BA"); ("bg", flag "BG"); ("ca", flag "AD");
  ("ceb", flag "PH"); ("ny", flag "MW"); ("zh-cn", flag "CN");
  ("zh-tw", flag "CN"); ("co", flag "FR"); ("hr", flag "HR");
  ("cs", flag "CZ"); ("da", flag "DK"); ("nl", flag "NL");
  ("en", flag "GB"); ("eo", None); ("et", flag "EE"); ("tl", flag "PH");
  ("fi", flag "FI"); ("fr", flag "FR"); ("fy", None); ("gl", None);
  ("ka", flag "GE"); ("de", flag "DE"); ("el", flag "GR");
  ("gu", flag "IN"); ("ht", flag "HT"); ("ha", flag "HA"); ("haw", None);
  ("iw", flag "IL"); ("he", flag "IL"); ("hi", flag "IN"); ("hmn", None);
  ("hu", flag "HU"); ("is", flag "IS"); ("ig", flag "NG");
  ("id", flag "ID"); ("ga", flag "IE"); ("it", flag "IT");
  ("ja", flag "JP"); ("jw", None); ("kn", None); ("kk", flag "KZ");
  ("km", flag "KH"); ("ko", flag "KR"); ("ku", flag "IQ");
  ("ky", flag "KG"); ("lo", flag "LA"); ("la", flag "VA");
  ("lv", flag "LV"); ("lt", flag "LT"); ("lb", flag "LU");
  ("mk", flag "MK"); ("mg", flag "MG"); ("ms", flag "MY"); ("ml", None);
  ("mt", flag "MT"); ("mi", flag "NZ"); ("mr", None); ("mn", flag "MN");
  ("my", flag "MM"); ("ne", flag "NP"); ("no", flag "NO"); ("or", None);
  ("ps", flag "AF"); ("fa", flag "IR"); ("pl", flag "PL");
  ("pt", flag "PT"); ("pa", flag "IN"); ("ro", flag "RO");
  ("ru", flag "RU"); ("sm", None); ("gd", None); ("sr", flag "RS");
  ("st", flag "LS"); ("sn", flag "ZW"); ("sd", None); ("si", flag "LK");
  ("sk", flag "SK"); ("sl", flag "SI"); ("so", flag "SO");
  ("es", flag "ES"); ("su", None); ("sw", flag "SW"); ("sv", flag "SE");
  ("tg", flag "TJ"); ("ta", flag "LK"); ("te", flag "IN");
  ("th", flag "TH"); ("tr", flag "TR"); ("uk", flag "UA");
  ("ur", flag "PK"); ("ug", None); ("uz", flag "UZ"); ("vi", flag "VN");
  ("cy", flag "GB"); ("xh", flag "ZA"); ("yi", None); ("yo", flag "YO");
  ("zu", flag "ZA")
  ].

(** [get_lang_emoji(lang)]: [None] stands for Python's [None], which is
    returned for a missing key and for a key stored with [None]. *)
Definition get_lang_emoji (lang : string) : option ustr :=
  match dict_get LANG2FLAG lang with
  | Some v => v
  | None => None
  end.

(** ** Vocabulary of the statements *)

(** The error kinds of the design document, as the code raises them. *)
Module Taxonomy.

Definition InvalidInput : exn := ValueError "The URL provided is invalid.".
Definition Timeout : exn := ValueError "Couldn't connect to URL. (Timeout)".
Definition ConnectionFailed : exn := ValueError "Couldn't connect to URL.".
Definition BadResponse (code : Z) : exn :=
  BadResponseError ("The URL leads to an error " ++ str_of_int code).
Definition UnsupportedMediaType_inline : exn :=
  ValueError "Only images are supported with data URLs.".
Definition UnsupportedMediaType_remote : exn :=
  ValueError "The URL doesn't contain any image.".

(** [DecodeError] has no class of its own in the code: a payload that
    cannot be decoded surfaces as the decoder's own exception. *)
Definition is_DecodeError (e : exn) : bool :=
  match e with
  | binascii_Error _ => true
  | JSONDecodeError _ => true
  | ValueError msg =>
      String.eqb msg "string argument should contain only ASCII characters"
  | _ => false
  end.

(** An exception that is one of the six kinds. *)
Definition classified (e : exn) : bool :=
  match e with
  | ValueError msg =>
      String.eqb msg "The URL provided is invalid."
      || String.eqb msg "Couldn't connect to URL. (Timeout)"
      || String.eqb msg "Couldn't connect to URL."
      || String.eqb msg "Only images are supported with data URLs."
      || String.eqb msg "The URL doesn't contain any image."
      || is_DecodeError e
  | BadResponseError _ => true
  | _ => is_DecodeError e
  end.

End Taxonomy.
Export Taxonomy.

(** The call goes on to the network: [check_data_url] returned, and what
    it returned is false in [if data:]. *)
Definition takes_network_path (url : string) : bool :=
  match check_data_url url with
  | Return data => negb (truthy data)
  | Raise _ => false
  end.

(** Every character of [s] is in the class [p]. *)
Fixpoint all_chars (p : ascii -> bool) (s : string) : bool :=
  match s with
  | EmptyString => true
  | String c rest => p c && all_chars p rest
  end.

(** A character of the base64 alphabet. *)
Definition is_b64_char (c : ascii) : bool :=
  match b64_value c with Some _ => true | None => false end.


(** [s] is made of characters of the alphabet followed by at most two
    padding signs. *)
Fixpoint b64_body (s : string) : bool :=
  match s with
  | EmptyString => true
  | String c rest =>
      if is_b64_char c then b64_body rest
      else String.eqb s "=" || String.eqb s "=="
  end.

(** Valid base64 in the sense of RFC 4648, section 4: groups of four
    characters of the alphabet, the last one possibly ending in one or
    two padding signs. *)
Definition valid_base64 (s : string) : bool :=
  Nat.eqb (String.length s mod 4) 0 && b64_body s.

(** The data URI that carries [bs] under the media type [mime]. *)
Definition data_uri (mime : string) (bs : list byte) : string :=
  "data:" ++ mime ++ ";base64," ++ b64encode bs.

(** *** The data-URL pattern read as a grammar *)

Definition opt_text (o : option string) : string :=
  match o with
  | Some s => s
  | None => EmptyString
  end.

(** The text of the charset group: [;charset=] and one or more characters
    of its class. *)
Definition charset_group_ok (o : option string) : bool :=
  match o with
  | None => true
  | Some s =>
      match strip ";charset=" s with
      | Some (String c name) => all_chars is_charset_char (String c name)
      | _ => false
      end
  end.

(** The text of the flag group. *)
Definition encoding_group_ok (o : option string) : bool :=
  match o with
  | None => true
  | Some s => String.eqb s ";base64"
  end.

(** One way for the pattern to match at the start of [url]: the groups
    [g], and [rest] left unread.  All the ways the backtracking matcher
    could succeed are of this form. *)
Definition matches_as (url : string) (g : groups) (rest : string) : Prop :=
  url = "data:" ++ g_mime g ++ opt_text (g_charset g)
          ++ opt_text (g_encoding g) ++ "," ++ g_data g ++ rest
  /\ all_chars is_mime_char (g_mime g) = true
  /\ charset_group_ok (g_charset g) = true
  /\ encoding_group_ok (g_encoding g) = true
  /\ all_chars is_dot (g_data g) = true.

(** [s] is empty or starts with a character outside [p]. *)
Definition stops (p : ascii -> bool) (s : string) : Prop :=
  match s with
  | EmptyString => True
  | String c _ => p c = false
  end.

(** *** Payloads, responses and exceptions *)


(** The GET was answered with status 200. *)
Definition got_200 (net : Network) (url : string) : bool :=
  match net url with
  | Return r => (status r =? 200)%Z
  | Raise _ => false
  end.

(** The URL was read as inline data: [check_data_url] returned something
    other than [None]. *)
Definition parsed_inline (url : string) : bool :=
  match check_data_url url with
  | Return VNone => false
  | Return _ => true
  | Raise _ => false
  end.

(** An exception none of the [except] clauses catches. *)
Definition uncaught (e : exn) : bool :=
  negb (isinstance e cls_InvalidURL
        || isinstance e cls_TimeoutError
        || isinstance e cls_ClientConnectionError).

(** A header named [name], whatever the case of its letters, is among
    the headers [hs]. *)
Definition declares (hs : list (string * string)) (name : string) : bool :=
  existsb (fun kv => String.eqb (lower (fst kv)) (lower name)) hs.

(** An exception the docstring of [get_content] names: it raises
    [BadResponseError] or [ValueError].  [binascii.Error],
    [JSONDecodeError] and [InvalidURL] are subclasses of [ValueError]. *)
Definition documented (e : exn) : bool :=
  match e with
  | ValueError _ | BadResponseError _ => true
  | binascii_Error _ | JSONDecodeError _ | InvalidURL => true
  | _ => false
  end.

(** *** Finite checks used for the base64 tables *)

(** Checking a property of the numbers below a bound by running it. *)
Definition below (n : nat) : list N := map N.of_nat (seq 0 n).

(** The characters of the alphabet: each has its own value back, is not
    the padding sign, is ASCII and is not a line feed. *)
Definition alphabet_ok (v : N) : bool :=
  match b64_value (b64_char v) with
  | Some w => (w =? v)%N
  | None => false
  end
  && negb (Ascii.eqb (b64_char v) "=")
  && (code (b64_char v) <? 128)%N
  && is_dot (b64_char v).

(** The fields cut out of a byte fit their width. *)
Definition fields_fit (a : N) : bool :=
  (N.shiftr a 2 <? 64)%N && (N.land a 3 <? 4)%N && (N.shiftr a 4 <? 16)%N
  && (N.land a 15 <? 16)%N && (N.shiftr a 6 <? 4)%N && (N.land a 63 <? 64)%N.

(** *** The other helpers *)


(** [count] cells one after the other. *)
Definition cells (cell : ustr) (count : nat) : ustr := concat (repeat cell count).

(** With the default width the index computed in floating point is the
    whole percentage divided by five. *)
Definition default_index_is_exact (t : N) : bool :=
  match bar_index (Int (Z.of_N t)) 20 with
  | Return i => (i =? Z.of_N t / 5)%Z
  | Raise _ => false
  end.

(** A character the keys of [LANG2FLAG] are written with: a lower-case
    letter or a hyphen. *)
Definition is_key_char (c : ascii) : bool :=
  between 97 122 (code c) || Ascii.eqb c "-".

(** A regional indicator symbol. *)
Definition is_regional_indicator (x : N) : bool := between 127462 127487 x.

(** An item of the table is well formed. *)
Definition item_ok (item : string * option ustr) : bool :=
  all_chars is_key_char (fst item)
  && match snd item with
     | None => true
     | Some [x; y] => is_regional_indicator x && is_regional_indicator y
     | Some _ => false
     end.

(** * Properties *)

(** ** The model on a few inputs *)

Example match_png :
  data_url_match "data:image/png;base64,QUJD"
  = Some (mkGroups "image/png" None (Some ";base64") "QUJD").
Proof. reflexivity. Qed.

Example match_svg_charset :
  data_url_match "data:image/svg+xml;charset=utf-8,<svg/>"
  = Some (mkGroups "image/svg+xml" (Some ";charset=utf-8") None "<svg/>").
Proof. reflexivity. Qed.

Example match_bare : data_url_match "data:," = Some (mkGroups "" None None "").
Proof. reflexivity. Qed.

Example no_match_dotted_type :
  data_url_match "data:image/vnd.microsoft.icon;base64,QUJD" = None.
Proof. reflexivity. Qed.

Example no_match_http : data_url_match "https://example.com/a.png" = None.
Proof. reflexivity. Qed.

Example decode_ABC : b64decode "QUJD" = Return ["A"%byte; "B"%byte; "C"%byte].
Proof. reflexivity. Qed.

Example decode_padded : b64decode "QUI=" = Return ["A"%byte; "B"%byte].
Proof. reflexivity. Qed.

Example decode_skips_foreign_characters :
  b64decode "QU JD!" = Return ["A"%byte; "B"%byte; "C"%byte].
Proof. reflexivity. Qed.

Example decode_incorrect_padding :
  b64decode "QUI" = Raise (binascii_Error "Incorrect padding").
Proof. reflexivity. Qed.

Example decode_one_left_over :
  b64decode "QUJDR"
  = Raise (binascii_Error
             "Invalid base64-encoded string: number of data characters (5) cannot be 1 more than a multiple of 4").
Proof. reflexivity. Qed.

Example encode_AB : b64encode ["A"%byte; "B"%byte] = "QUI=".
Proof. reflexivity. Qed.

Example inline_image :
  get_content (fun _ => Raise InvalidURL) "data:image/png;base64,QUJD" "image"
  = mkRun [] (Return (VBytes ["A"%byte; "B"%byte; "C"%byte])).
Proof. reflexivity. Qed.

Example remote_json :
  get_content
    (fun _ => Return (mkResponse 200 [("Content-Type", "application/json")]
                        (Return []) (Return (JObj []))))
    "https://example.com/a.json" "json"
  = mkRun ["https://example.com/a.json"] (Return (VJson (JObj []))).
Proof. reflexivity. Qed.

(** ** The matcher against the pattern read as a grammar *)

Lemma append_empty_r (s : string) : s ++ "" = s.
Proof.
  induction s as [|c s IH]; cbn; [reflexivity|now rewrite IH].
Qed.

Lemma strip_Some (p s t : string) : strip p s = Some t -> s = p ++ t.
Proof.
  revert s. induction p as [|a p IH]; intros s H; cbn in *.
  - now injection H as ->.
  - destruct s as [|b s]; [discriminate|].
    destruct (Ascii.eqb_spec a b) as [->|]; [|discriminate].
    now rewrite (IH s H).
Qed.

Lemma strip_append (p t : string) : strip p (p ++ t) = Some t.
Proof.
  induction p as [|a p IH]; cbn; [reflexivity|].
  now rewrite Ascii.eqb_refl.
Qed.

Lemma span_spec (p : ascii -> bool) (s : string) :
  s = fst (span p s) ++ snd (span p s)
  /\ all_chars p (fst (span p s)) = true
  /\ stops p (snd (span p s)).
Proof.
  induction s as [|c s IH]; cbn; [auto|].
  destruct (p c) eqn:Hc.
  - destruct (span p s) as [a b]; cbn in *.
    destruct IH as (-> & Ha & Hb). rewrite Hc. auto.
  - cbn. auto.
Qed.

Lemma span_append (p : ascii -> bool) (a b : string) :
  all_chars p a = true ->
  span p (a ++ b) = (a ++ fst (span p b), snd (span p b)).
Proof.
  intros Ha. induction a as [|c a IH].
  - cbn [append]. now destruct (span p b).
  - cbn [all_chars] in Ha. apply andb_true_iff in Ha. destruct Ha as [Hc Ha].
    cbn [append span]. now rewrite Hc, (IH Ha).
Qed.

Lemma span_stops (p : ascii -> bool) (s : string) :
  stops p s -> span p s = (EmptyString, s).
Proof.
  destruct s as [|c s]; cbn; [reflexivity|]. now intros ->.
Qed.

Lemma append_assoc (a b c : string) : (a ++ b) ++ c = a ++ b ++ c.
Proof.
  induction a as [|x a IH]; cbn; [reflexivity|now rewrite IH].
Qed.

Lemma charset_group_spec (s : string) :
  s = opt_text (fst (charset_group s)) ++ snd (charset_group s)
  /\ charset_group_ok (fst (charset_group s)) = true
  /\ (fst (charset_group s) <> None ->
      stops is_charset_char (snd (charset_group s))).
Proof.
  unfold charset_group.
  destruct (strip ";charset=" s) as [t|] eqn:Hs;
    [|cbn; repeat split; congruence].
  apply strip_Some in Hs.
  destruct (span_spec is_charset_char t) as (Ht & Ha & Hb).
  destruct (span is_charset_char t) as [[|c name] t']; cbn in *;
    [repeat split; congruence|].
  repeat split; [|assumption|intros _; assumption].
  rewrite Hs, Ht. reflexivity.
Qed.

Lemma encoding_group_spec (s : string) :
  s = opt_text (fst (encoding_group s)) ++ snd (encoding_group s)
  /\ encoding_group_ok (fst (encoding_group s)) = true.
Proof.
  unfold encoding_group.
  destruct (strip ";base64" s) as [t|] eqn:Hs; [|cbn; auto].
  apply strip_Some in Hs. cbn [fst snd opt_text encoding_group_ok]. auto.
Qed.

(** What the matcher returns is a way for the pattern to match, and the
    payload group could not have been longer. *)
Lemma data_url_match_sound (url : string) (g : groups) :
  data_url_match url = Some g ->
  exists rest, matches_as url g rest /\ stops is_dot rest.
Proof.
  unfold data_url_match.
  destruct (strip "data:" url) as [s1|] eqn:H1; [|discriminate].
  apply strip_Some in H1.
  destruct (span_spec is_mime_char s1) as (H2 & Hm & _).
  destruct (span is_mime_char s1) as [mime s2]; cbn [fst snd] in *.
  destruct (charset_group_spec s2) as (H3 & Hc & _).
  destruct (charset_group s2) as [charset s3]; cbn [fst snd] in *.
  destruct (encoding_group_spec s3) as (H4 & He).
  destruct (encoding_group s3) as [encoding s4]; cbn [fst snd] in *.
  destruct s4 as [|c s5]; [discriminate|].
  destruct (Ascii.eqb_spec c ","%char) as [->|Hne].
  - intros H. injection H as <-.
    destruct (span_spec is_dot s5) as (H5 & Hd & Hr).
    exists (snd (span is_dot s5)). split; [|exact Hr].
    unfold matches_as. cbn [g_mime g_charset g_encoding g_data].
    repeat split; try assumption.
    rewrite H1, H2, H3, H4. cbn [append]. now rewrite <- H5.
  - intros H. exfalso.
    destruct c as [[] [] [] [] [] [] [] []]; try discriminate H.
    now apply Hne.
Qed.

Lemma append_empty_l (s : string) : "" ++ s = s.
Proof. reflexivity. Qed.

Lemma charset_group_take (c : ascii) (name rest : string) :
  all_chars is_charset_char (String c name) = true ->
  stops is_charset_char rest ->
  charset_group (";charset=" ++ String c name ++ rest)
  = (Some (";charset=" ++ String c name), rest).
Proof.
  intros Ha Hr. unfold charset_group.
  rewrite strip_append, (span_append _ _ _ Ha), (span_stops _ _ Hr).
  cbn [fst snd]. rewrite append_empty_r. reflexivity.
Qed.

(** Every way for the pattern to match gives the groups the matcher
    returns: the first three are forced, and the matcher's payload is the
    one read, extended as far as the line goes. *)
Lemma data_url_match_complete (url : string) (g : groups) (rest : string) :
  matches_as url g rest ->
  data_url_match url
  = Some (mkGroups (g_mime g) (g_charset g) (g_encoding g)
            (g_data g ++ fst (span is_dot rest))).
Proof.
  destruct g as [mime cs enc data]. unfold matches_as.
  cbn [g_mime g_charset g_encoding g_data].
  intros (-> & Hm & Hcs & Henc & Hd).
  unfold data_url_match. rewrite strip_append.
  assert (Hlast : forall s,
             match s with EmptyString => None | String _ _ => Some s end
             = Some ("," ++ data ++ rest) ->
             match s with
             | String "," s5 =>
                 Some (mkGroups mime cs enc (fst (span is_dot s5)))
             | _ => None
             end
             = Some (mkGroups mime cs enc (data ++ fst (span is_dot rest)))).
  { intros s Hs. destruct s as [|c s5]; [discriminate|].
    injection Hs as -> ->. now rewrite (span_append _ _ _ Hd). }
  destruct enc as [e|].
  - cbn in Henc. apply String.eqb_eq in Henc. subst e.
    destruct cs as [s|].
    + unfold charset_group_ok in Hcs.
      destruct (strip ";charset=" s) as [[|c name]|] eqn:Hs;
        try discriminate.
      apply strip_Some in Hs. subst s. cbn [opt_text].
      rewrite (span_append _ _ _ Hm), span_stops by reflexivity.
      cbn [fst snd]. rewrite append_empty_r, append_assoc.
      rewrite (charset_group_take c name _ Hcs) by reflexivity.
      unfold encoding_group. rewrite strip_append.
      now apply Hlast.
    + cbn [opt_text]. rewrite !append_empty_l.
      rewrite (span_append _ _ _ Hm), span_stops by reflexivity.
      cbn [fst snd]. rewrite append_empty_r.
      change (charset_group (";base64" ++ "," ++ data ++ rest))
        with (@None string, ";base64" ++ "," ++ data ++ rest).
      unfold encoding_group. rewrite strip_append.
      now apply Hlast.
  - destruct cs as [s|].
    + unfold charset_group_ok in Hcs.
      destruct (strip ";charset=" s) as [[|c name]|] eqn:Hs;
        try discriminate.
      apply strip_Some in Hs. subst s. cbn [opt_text].
      rewrite !append_empty_l.
      rewrite (span_append _ _ _ Hm), span_stops by reflexivity.
      cbn [fst snd]. rewrite append_empty_r, append_assoc.
      rewrite (charset_group_take c name _ Hcs) by reflexivity.
      change (encoding_group ("," ++ data ++ rest))
        with (@None string, "," ++ data ++ rest).
      cbv beta iota. now apply Hlast.
    + cbn [opt_text]. rewrite !append_empty_l.
      rewrite (span_append _ _ _ Hm), span_stops by reflexivity.
      cbn [fst snd]. rewrite append_empty_r.
      change (charset_group ("," ++ data ++ rest))
        with (@None string, "," ++ data ++ rest).
      cbv beta iota.
      change (encoding_group ("," ++ data ++ rest))
        with (@None string, "," ++ data ++ rest).
      cbv beta iota. now apply Hlast.
Qed.

(** The flag group is absent or is the flag: the two cases the decoder
    tells apart are all there is. *)
Lemma data_url_match_encoding (url : string) (g : groups) :
  data_url_match url = Some g ->
  g_encoding g = None \/ g_encoding g = Some ";base64".
Proof.
  intros H. destruct (data_url_match_sound url g H) as [rest [M _]].
  destruct M as (_ & _ & _ & He & _).
  destruct (g_encoding g) as [e|]; [|now left].
  right. cbn in He. apply String.eqb_eq in He. now subst e.
Qed.

(** ** How [check_data_url] ends, by the shape of the match *)

Section CheckDataUrl.

Variable url : string.

Lemma check_data_url_no_match :
  data_url_match url = None -> check_data_url url = Return VNone.
Proof.
  intros H. unfold check_data_url. now rewrite H.
Qed.

Lemma check_data_url_not_image (g : groups) :
  data_url_match url = Some g ->
  str_in "image" (g_mime g) = false ->
  check_data_url url = Raise UnsupportedMediaType_inline.
Proof.
  intros Hm Hi. unfold check_data_url. rewrite Hm, Hi. reflexivity.
Qed.

Lemma check_data_url_base64 (g : groups) :
  data_url_match url = Some g ->
  str_in "image" (g_mime g) = true ->
  g_encoding g = Some ";base64" ->
  check_data_url url = fmap VBytes (b64decode (g_data g)).
Proof.
  intros Hm Hi He. unfold check_data_url. rewrite Hm, Hi, He. reflexivity.
Qed.

Lemma check_data_url_no_flag (g : groups) :
  data_url_match url = Some g ->
  str_in "image" (g_mime g) = true ->
  g_encoding g = None ->
  check_data_url url =
  Raise (TypeError "argument of type 'NoneType' is not iterable").
Proof.
  intros Hm Hi He. unfold check_data_url. rewrite Hm, Hi, He. reflexivity.
Qed.

End CheckDataUrl.

(** ** The two ways through [get_content] *)

Section GetContent.

Variable net : Network.
Variables url content_type : string.

Lemma get_content_raises (e : exn) :
  check_data_url url = Raise e ->
  get_content net url content_type = mkRun [] (Raise e).
Proof.
  intros H. unfold get_content. now rewrite H.
Qed.

Lemma get_content_inline (data : value) :
  check_data_url url = Return data ->
  truthy data = true ->
  get_content net url content_type = mkRun [] (Return data).
Proof.
  intros H Ht. unfold get_content. now rewrite H, Ht.
Qed.

Lemma get_content_remote :
  takes_network_path url = true ->
  get_content net url content_type
  = mkRun [url] (fetch_remote net url content_type).
Proof.
  unfold takes_network_path, get_content.
  destruct (check_data_url url) as [data|e]; [|discriminate].
  destruct (truthy data); [discriminate|reflexivity].
Qed.

Lemma no_match_takes_network_path :
  data_url_match url = None -> takes_network_path url = true.
Proof.
  intros H. unfold takes_network_path.
  now rewrite (check_data_url_no_match _ H).
Qed.

End GetContent.

(** The decimal rendering of the status keeps the status apart. *)
Lemma str_of_int_inj (a b : Z) : str_of_int a = str_of_int b -> a = b.
Proof.
  assert (Hnil : forall z, Z.to_int z <> Decimal.Pos Decimal.Nil
                           /\ Z.to_int z <> Decimal.Neg Decimal.Nil).
  { intros z; split; intros H; pose proof (f_equal Z.of_int H) as E;
      rewrite DecimalZ.of_to in E; cbn in E; subst z; discriminate H. }
  unfold str_of_int. intros H.
  apply DecimalZ.to_int_inj.
  destruct (Hnil a) as [Ha1 Ha2], (Hnil b) as [Hb1 Hb2].
  pose proof (NilZero.isi _ Ha1 Ha2) as Ia.
  pose proof (NilZero.isi _ Hb1 Hb2) as Ib.
  rewrite H in Ia. rewrite Ia in Ib. now injection Ib.
Qed.

Lemma append_inj_l (p s t : string) : p ++ s = p ++ t -> s = t.
Proof.
  induction p as [|c p IH]; cbn; intros H; [assumption|].
  injection H as H. auto.
Qed.

Lemma BadResponse_inj (a b : Z) : BadResponse a = BadResponse b -> a = b.
Proof.
  unfold BadResponse. intros H.
  assert (E : forall x y : string, BadResponseError x = BadResponseError y -> x = y)
    by (intros x y Hxy; now injection Hxy).
  apply E, append_inj_l in H. now apply str_of_int_inj.
Qed.

(** ** The inline path *)

(** C2. A URL that matches the data-URL pattern with a media type
    containing "image" and no base64 flag should give back its payload
    unchanged.  The code does not: the flag group is [None], the test
    ["base64" in encoding] raises [TypeError] before the branch that keeps
    the payload is reached, for every such URL. *)
Theorem C2_no_flag_raises_TypeError (url : string) (g : groups) :
  data_url_match url = Some g ->
  str_in "image" (g_mime g) = true ->
  g_encoding g = None ->
  check_data_url url
  = Raise (TypeError "argument of type 'NoneType' is not iterable")
  /\ check_data_url url <> Return (VStr (g_data g)).
Proof.
  intros Hm Hi He.
  rewrite (check_data_url_no_flag url g Hm Hi He). split; [reflexivity|discriminate].
Qed.

Lemma C2_no_flag_witness :
  check_data_url "data:image/png,hello"
  = Raise (TypeError "argument of type 'NoneType' is not iterable")
  /\ check_data_url "data:image/png,hello" <> Return (VStr "hello").
Proof.
  apply (C2_no_flag_raises_TypeError "data:image/png,hello"
           (mkGroups "image/png" None None "hello")); reflexivity.
Defined.



(** C10. The inline result is tested for truth, not against [None]: when
    an image data URI with the base64 flag decodes to no byte at all,
    [check_data_url] returns the empty [bytes], [get_content] drops it
    and sends the URL to the network like any other URL. *)
Theorem C10_empty_payload_falls_through
  (net : Network) (url content_type : string) (g : groups) :
  data_url_match url = Some g ->
  str_in "image" (g_mime g) = true ->
  g_encoding g = Some ";base64" ->
  b64decode (g_data g) = Return [] ->
  check_data_url url = Return (VBytes [])
  /\ get_content net url content_type
     = mkRun [url] (fetch_remote net url content_type).
Proof.
  intros Hm Hi He Hd.
  assert (Hc : check_data_url url = Return (VBytes [])).
  { rewrite (check_data_url_base64 url g Hm Hi He), Hd. reflexivity. }
  split; [exact Hc|].
  apply get_content_remote. unfold takes_network_path. now rewrite Hc.
Qed.

Lemma C10_empty_payload_witness :
  check_data_url "data:image/png;base64," = Return (VBytes [])
  /\ get_content (fun _ => Return (mkResponse 404 [] (Return []) (Return JNull)))
       "data:image/png;base64," "image"
     = mkRun ["data:image/png;base64,"]
         (Raise (BadResponseError "The URL leads to an error 404")).
Proof.
  apply (C10_empty_payload_falls_through
           (fun _ => Return (mkResponse 404 [] (Return []) (Return JNull)))
           "data:image/png;base64," "image"
           (mkGroups "image/png" None (Some ";base64") "")); reflexivity.
Defined.

(** ** The network path *)



Lemma headers_getitem_absent (hs : list (string * string)) (key : string) :
  declares hs key = false -> headers_getitem hs key = Raise (KeyError key).
Proof.
  induction hs as [|[k v] hs IH]; cbn; [reflexivity|].
  intros H. apply orb_false_iff in H. destruct H as [Hk H].
  rewrite Hk. now apply IH.
Qed.

Lemma headers_getitem_first
  (before : list (string * string)) (k v : string)
  (after : list (string * string)) (key : string) :
  declares before key = false ->
  lower k = lower key ->
  headers_getitem (before ++ (k, v) :: after)%list key = Return v.
Proof.
  intros Hb Hk. induction before as [|[k' v'] before IH]; cbn.
  - now rewrite Hk, String.eqb_refl.
  - cbn in Hb. apply orb_false_iff in Hb. destruct Hb as [Hk' Hb].
    rewrite Hk'. now apply IH.
Qed.

(** Kind [image] on the network path, status 200, and a response that
    declares its content type: the value looked at is that of the first
    header named [content-type], whatever the case of the name.  Without
    "image" in it the call raises [ValueError("The URL doesn't contain any
    image.")]; with it the call ends as [r.read()] does, so a body that
    was read is returned byte for byte. *)
Lemma image_kind_checks_declared_header
  (net : Network) (url : string) (r : ClientResponse)
  (before : list (string * string)) (name ct : string)
  (after : list (string * string)) :
  takes_network_path url = true ->
  net url = Return r ->
  status r = 200%Z ->
  headers r = (before ++ (name, ct) :: after)%list ->
  declares before "content-type" = false ->
  lower name = "content-type" ->
  (str_in "image" ct = false ->
   get_content net url "image"
   = mkRun [url] (Raise UnsupportedMediaType_remote))
  /\ (str_in "image" ct = true ->
      get_content net url "image"
      = mkRun [url] (except_clauses (fmap VBytes (read r))))
  /\ (str_in "image" ct = true ->
      forall body : list byte,
        read r = Return body ->
        get_content net url "image" = mkRun [url] (Return (VBytes body))).
Proof.
  intros Hp Hn Hs Hh Hb Hk.
  rewrite (get_content_remote net url "image" Hp).
  unfold fetch_remote, read_response. rewrite Hn. cbn [bind].
  rewrite Hs, Hh, (headers_getitem_first before name ct after "content-type" Hb Hk).
  cbn. repeat split.
  - intros Hi. rewrite Hi. reflexivity.
  - intros Hi. rewrite Hi. reflexivity.
  - intros Hi body Hr. rewrite Hi, Hr. reflexivity.
Qed.

(** C5. Kind [image] on the network path with status 200 should end in
    one of two ways: the "doesn't contain any image" error when the
    declared content type lacks "image", the body otherwise.  For a
    response that declares a content type it does
    ([image_kind_checks_declared_header]).  For a response with no
    [content-type] header it does not: the lookup [r.headers["content-type"]]
    raises [KeyError], no [except] clause catches it, and the caller gets
    the [KeyError] where the rejection as "not an image" was due. *)
Theorem C5_absent_header_raises_KeyError
  (net : Network) (url : string) (r : ClientResponse) :
  takes_network_path url = true ->
  net url = Return r ->
  status r = 200%Z ->
  declares (headers r) "content-type" = false ->
  get_content net url "image" = mkRun [url] (Raise (KeyError "content-type"))
  /\ get_content net url "image"
     <> mkRun [url] (Raise UnsupportedMediaType_remote)
  /\ (forall body : list byte,
        get_content net url "image" <> mkRun [url] (Return (VBytes body))).
Proof.
  intros Hp Hn Hs Hd.
  assert (E : get_content net url "image"
              = mkRun [url] (Raise (KeyError "content-type"))).
  { rewrite (get_content_remote net url "image" Hp).
    unfold fetch_remote, read_response. rewrite Hn. cbn [bind].
    rewrite Hs, (headers_getitem_absent _ _ Hd). reflexivity. }
  rewrite E. repeat split; try intros body; discriminate.
Qed.

Lemma C5_absent_header_witness :
  get_content
    (fun _ => Return (mkResponse 200
                        [("Server", "nginx"); ("Content-Length", "2")]
                        (Return ["h"%byte; "i"%byte]) (Return JNull)))
    "https://example.com/a.png" "image"
  = mkRun ["https://example.com/a.png"] (Raise (KeyError "content-type")).
Proof.
  apply (C5_absent_header_raises_KeyError
           (fun _ => Return (mkResponse 200
                               [("Server", "nginx"); ("Content-Length", "2")]
                               (Return ["h"%byte; "i"%byte]) (Return JNull)))
           "https://example.com/a.png"
           (mkResponse 200 [("Server", "nginx"); ("Content-Length", "2")]
              (Return ["h"%byte; "i"%byte]) (Return JNull)));
    reflexivity.
Defined.

(** What the [except] clauses make of an exception, by its class. *)
Lemma except_clauses_timeout (e : exn) :
  isinstance e cls_TimeoutError = true ->
  except_clauses (Raise e) = Raise Timeout.
Proof.
  destruct e; cbn; intros H; try discriminate; reflexivity.
Qed.

(** C6. On the network path a timeout, while connecting or while the
    response is read, comes out as [ValueError("Couldn't connect to URL.
    (Timeout)")]; a connection failure that is not a timeout comes out as
    [ValueError("Couldn't connect to URL.")] and a malformed URL as
    [ValueError("The URL provided is invalid.")]; the three differ. *)
Theorem C6_timeout_is_told_apart
  (net : Network) (url content_type : string) :
  takes_network_path url = true ->
  (forall e, isinstance e cls_TimeoutError = true ->
     net url = Raise e ->
     get_content net url content_type = mkRun [url] (Raise Timeout))
  /\ (forall e r, isinstance e cls_TimeoutError = true ->
        net url = Return r ->
        read_response r content_type = Raise e ->
        get_content net url content_type = mkRun [url] (Raise Timeout))
  /\ (net url = Raise ClientConnectionError ->
      get_content net url content_type = mkRun [url] (Raise ConnectionFailed))
  /\ (net url = Raise InvalidURL ->
      get_content net url content_type = mkRun [url] (Raise InvalidInput))
  /\ Timeout <> ConnectionFailed
  /\ Timeout <> InvalidInput
  /\ ConnectionFailed <> InvalidInput.
Proof.
  intros Hp.
  rewrite (get_content_remote net url content_type Hp).
  unfold fetch_remote.
  repeat split; try discriminate.
  - intros e He Hn. rewrite Hn. cbn [bind].
    now rewrite (except_clauses_timeout e He).
  - intros e r He Hn Hr. rewrite Hn. cbn [bind]. rewrite Hr.
    now rewrite (except_clauses_timeout e He).
  - intros Hn. rewrite Hn. reflexivity.
  - intros Hn. rewrite Hn. reflexivity.
Qed.

Lemma C6_timeout_witness :
  get_content (fun _ => Raise ServerTimeoutError) "https://example.com/a" "bytes"
  = mkRun ["https://example.com/a"]
      (Raise (ValueError "Couldn't connect to URL. (Timeout)"))
  /\ get_content
       (fun _ => Return (mkResponse 200 [] (Raise asyncio_TimeoutError)
                           (Return JNull)))
       "https://example.com/a" "bytes"
     = mkRun ["https://example.com/a"]
         (Raise (ValueError "Couldn't connect to URL. (Timeout)")).
Proof.
  split.
  - apply (proj1 (C6_timeout_is_told_apart
                    (fun _ => Raise ServerTimeoutError)
                    "https://example.com/a" "bytes" eq_refl)
             ServerTimeoutError); reflexivity.
  - apply (proj1 (proj2 (C6_timeout_is_told_apart
                    (fun _ => Return (mkResponse 200 [] (Raise asyncio_TimeoutError)
                                        (Return JNull)))
                    "https://example.com/a" "bytes" eq_refl))
             asyncio_TimeoutError
             (mkResponse 200 [] (Raise asyncio_TimeoutError) (Return JNull)));
      reflexivity.
Defined.

(** C9. On the network path, with status 200 and a kind that is none of
    [json], [bytes] and [image], no branch of the dispatch is taken and
    [get_content] returns [None]. *)
Theorem C9_unknown_kind_returns_None
  (net : Network) (url content_type : string) (r : ClientResponse) :
  takes_network_path url = true ->
  net url = Return r ->
  status r = 200%Z ->
  content_type <> "json" ->
  content_type <> "bytes" ->
  content_type <> "image" ->
  get_content net url content_type = mkRun [url] (Return VNone).
Proof.
  intros Hp Hn Hs Hj Hb Hi.
  rewrite (get_content_remote net url content_type Hp).
  unfold fetch_remote, read_response. rewrite Hn. cbn [bind]. rewrite Hs.
  apply String.eqb_neq in Hj, Hb, Hi. rewrite Hj, Hb, Hi. reflexivity.
Qed.

Lemma C9_unknown_kind_witness :
  get_content
    (fun _ => Return (mkResponse 200 [("Content-Type", "text/html")]
                        (Return ["h"%byte]) (Return JNull)))
    "https://example.com/a" "text"
  = mkRun ["https://example.com/a"] (Return VNone).
Proof.
  apply (C9_unknown_kind_returns_None
           (fun _ => Return (mkResponse 200 [("Content-Type", "text/html")]
                               (Return ["h"%byte]) (Return JNull)))
           "https://example.com/a" "text"
           (mkResponse 200 [("Content-Type", "text/html")]
              (Return ["h"%byte]) (Return JNull)));
    try reflexivity; discriminate.
Defined.

(** ** Base64: decoding what was encoded *)

Lemma forallb_below (P : N -> bool) (n : nat) :
  forallb P (below n) = true ->
  forall t : N, (t < N.of_nat n)%N -> P t = true.
Proof.
  intros H t Ht. rewrite forallb_forall in H. apply H.
  unfold below. apply in_map_iff. exists (N.to_nat t). split.
  - apply N2Nat.id.
  - apply in_seq. lia.
Qed.

Ltac by_running P n :=
  apply (forallb_below P n); vm_compute; reflexivity.

Lemma to_byte_to_N (x : byte) : to_byte (Byte.to_N x) = x.
Proof.
  unfold to_byte. rewrite <- ascii_of_byte_via_N. apply byte_of_ascii_of_byte.
Qed.

Lemma to_N_below_256 (x : byte) : (Byte.to_N x < N.of_nat 256)%N.
Proof.
  pose proof (Byte.to_N_bounded x). lia.
Qed.

Lemma alphabet_ok_below_64 (v : N) : (v < 64)%N -> alphabet_ok v = true.
Proof.
  revert v. by_running alphabet_ok 64%nat.
Qed.

Lemma forallb_below2 (P : N -> N -> bool) (n m : nat) :
  forallb (fun a => forallb (P a) (below m)) (below n) = true ->
  forall a b : N, (a < N.of_nat n)%N -> (b < N.of_nat m)%N -> P a b = true.
Proof.
  intros H a b Ha Hb.
  apply (forallb_below (P a) m); [|exact Hb].
  exact (forallb_below (fun a => forallb (P a) (below m)) n H a Ha).
Qed.

Lemma forallb_below3 (P : N -> N -> N -> bool) (n m k : nat) :
  forallb (fun a => forallb (fun b => forallb (P a b) (below k)) (below m))
    (below n) = true ->
  forall a b c : N,
    (a < N.of_nat n)%N -> (b < N.of_nat m)%N -> (c < N.of_nat k)%N ->
    P a b c = true.
Proof.
  intros H a b c Ha Hb Hc.
  apply (forallb_below (P a b) k); [|exact Hc].
  exact (forallb_below2 (fun a b => forallb (P a b) (below k)) n m H a b Ha Hb).
Qed.

Section BitFields.

Local Abbreviation shl := N.shiftl.
Local Abbreviation shr := N.shiftr.
Local Abbreviation lor := N.lor.
Local Abbreviation land := N.land.

Lemma byte_fields_fit (a : N) : (a < 256)%N -> fields_fit a = true.
Proof.
  revert a. by_running fields_fit 256%nat.
Qed.

Lemma sextet_hi_lo (u t : N) :
  (u < 4)%N -> (t < 16)%N -> (lor (shl u 4) t <? 64)%N = true.
Proof.
  revert u t.
  apply (forallb_below2 (fun u t => (lor (shl u 4) t <? 64)%N) 4 16).
  vm_compute; reflexivity.
Qed.

Lemma sextet_lo_hi (v w : N) :
  (v < 16)%N -> (w < 4)%N -> (lor (shl v 2) w <? 64)%N = true.
Proof.
  revert v w.
  apply (forallb_below2 (fun v w => (lor (shl v 2) w <? 64)%N) 16 4).
  vm_compute; reflexivity.
Qed.

(** The first byte of a group, from its first two characters. *)
Lemma first_byte_back (a t : N) :
  (a < 256)%N -> (t < 16)%N ->
  lor (shl (shr a 2) 2) (shr (lor (shl (land a 3) 4) t) 4) = a.
Proof.
  intros Ha Ht. apply N.eqb_eq. revert a t Ha Ht.
  apply (forallb_below2
           (fun a t =>
              (lor (shl (shr a 2) 2) (shr (lor (shl (land a 3) 4) t) 4) =? a)%N)
           256 16).
  vm_compute; reflexivity.
Qed.

(** The second byte, from the second and third characters. *)
Lemma second_byte_back (u b w : N) :
  (u < 4)%N -> (b < 256)%N -> (w < 4)%N ->
  lor (shl (land (lor (shl u 4) (shr b 4)) 15) 4)
      (shr (lor (shl (land b 15) 2) w) 2) = b.
Proof.
  intros Hu Hb Hw. apply N.eqb_eq. revert u b w Hu Hb Hw.
  apply (forallb_below3
           (fun u b w =>
              (lor (shl (land (lor (shl u 4) (shr b 4)) 15) 4)
                   (shr (lor (shl (land b 15) 2) w) 2) =? b)%N)
           4 256 4).
  vm_compute; reflexivity.
Qed.

(** The third byte, from the third and fourth characters. *)
Lemma third_byte_back (v c : N) :
  (v < 16)%N -> (c < 256)%N ->
  lor (shl (land (lor (shl v 2) (shr c 6)) 3) 6) (land c 63) = c.
Proof.
  intros Hv Hc. apply N.eqb_eq. revert v c Hv Hc.
  apply (forallb_below2
           (fun v c =>
              (lor (shl (land (lor (shl v 2) (shr c 6)) 3) 6) (land c 63) =? c)%N)
           16 256).
  vm_compute; reflexivity.
Qed.

End BitFields.

Lemma alphabet_facts (v : N) :
  (v < 64)%N ->
  b64_value (b64_char v) = Some v
  /\ Ascii.eqb (b64_char v) "=" = false
  /\ (code (b64_char v) <? 128)%N = true
  /\ is_dot (b64_char v) = true.
Proof.
  intros Hv. pose proof (alphabet_ok_below_64 v Hv) as H.
  unfold alphabet_ok in H.
  repeat (apply andb_true_iff in H; destruct H as [H ?]).
  destruct (b64_value (b64_char v)) as [w|]; [|discriminate].
  apply N.eqb_eq in H. subst w.
  repeat split; try assumption.
  now apply negb_true_iff.
Qed.

(** One character of the alphabet through the decoding loop. *)
Lemma a2b_loop_alphabet (v : N) (rest : string) (q l p : N) (out : list byte) :
  (v < 64)%N ->
  a2b_loop (String (b64_char v) rest) q l p out
  = if (q =? 0)%N then a2b_loop rest 1%N v 0%N out
    else if (q =? 1)%N then
      a2b_loop rest 2%N (N.land v 15) 0%N
        (to_byte (N.lor (N.shiftl l 2) (N.shiftr v 4)) :: out)
    else if (q =? 2)%N then
      a2b_loop rest 3%N (N.land v 3) 0%N
        (to_byte (N.lor (N.shiftl l 4) (N.shiftr v 2)) :: out)
    else
      a2b_loop rest 0%N 0%N 0%N (to_byte (N.lor (N.shiftl l 6) v) :: out).
Proof.
  intros Hv. destruct (alphabet_facts v Hv) as (Hval & Hpad & _).
  cbn [a2b_loop]. rewrite Hpad, Hval. reflexivity.
Qed.

Lemma list_ind3 {A : Type} (P : list A -> Prop) :
  P [] ->
  (forall x, P [x]) ->
  (forall x y, P [x; y]) ->
  (forall x y z l, P l -> P (x :: y :: z :: l)) ->
  forall l, P l.
Proof.
  intros H0 H1 H2 H3. fix IH 1.
  intros [|x [|y [|z l]]];
    [exact H0 | apply H1 | apply H2 | apply H3, IH].
Qed.

Ltac fields x :=
  let H := fresh "F" in
  pose proof (byte_fields_fit (Byte.to_N x) (to_N_below_256 x)) as H;
  unfold fields_fit in H;
  repeat (apply andb_true_iff in H; destruct H as [H ?]);
  repeat match goal with
         | E : (_ <? _)%N = true |- _ => apply N.ltb_lt in E
         end.

Ltac sextet :=
  first [ assumption
        | apply N.ltb_lt, sextet_hi_lo; assumption
        | apply N.ltb_lt, sextet_lo_hi; assumption ].

(** Decoding an encoding appends the encoded bytes to what was written. *)
Lemma a2b_loop_b64encode (bs : list byte) :
  forall (l p : N) (out : list byte),
    a2b_loop (b64encode bs) 0%N l p out = Return (rev out ++ bs)%list.
Proof.
  induction bs as [|x|x y|x y z rest IH] using list_ind3; intros l p out.
  - cbn. now rewrite app_nil_r.
  - fields x. cbn [b64encode].
    rewrite a2b_loop_alphabet by sextet. cbn [N.eqb].
    rewrite <- (N.lor_0_r (N.shiftl (N.land (Byte.to_N x) 3) 4)).
    rewrite a2b_loop_alphabet by (sextet || (apply N.ltb_lt, sextet_hi_lo; [assumption|lia])).
    cbn [N.eqb Pos.eqb].
    rewrite first_byte_back by (assumption || lia || apply to_N_below_256).
    rewrite to_byte_to_N. reflexivity.
  - fields x. fields y. cbn [b64encode].
    rewrite a2b_loop_alphabet by sextet. cbn [N.eqb].
    rewrite a2b_loop_alphabet by sextet. cbn [N.eqb Pos.eqb].
    rewrite <- (N.lor_0_r (N.shiftl (N.land (Byte.to_N y) 15) 2)).
    rewrite a2b_loop_alphabet by (apply N.ltb_lt, sextet_lo_hi; [assumption|lia]).
    cbn [N.eqb Pos.eqb].
    rewrite first_byte_back by (assumption || apply to_N_below_256).
    rewrite second_byte_back by (assumption || lia || apply to_N_below_256).
    rewrite !to_byte_to_N. cbn. now rewrite <- app_assoc.
  - fields x. fields y. fields z.
    change (b64encode (x :: y :: z :: rest))
      with (String (b64_char (N.shiftr (Byte.to_N x) 2))
              (String (b64_char (N.lor (N.shiftl (N.land (Byte.to_N x) 3) 4)
                                       (N.shiftr (Byte.to_N y) 4)))
                 (String (b64_char (N.lor (N.shiftl (N.land (Byte.to_N y) 15) 2)
                                          (N.shiftr (Byte.to_N z) 6)))
                    (String (b64_char (N.land (Byte.to_N z) 63))
                       (b64encode rest))))).
    rewrite a2b_loop_alphabet by sextet. cbn [N.eqb].
    rewrite a2b_loop_alphabet by sextet. cbn [N.eqb Pos.eqb].
    rewrite a2b_loop_alphabet by sextet. cbn [N.eqb Pos.eqb].
    rewrite a2b_loop_alphabet by sextet. cbn [N.eqb Pos.eqb].
    rewrite first_byte_back by (assumption || apply to_N_below_256).
    rewrite second_byte_back by (assumption || apply to_N_below_256).
    rewrite third_byte_back by (assumption || apply to_N_below_256).
    rewrite !to_byte_to_N, IH. cbn [rev].
    now rewrite <- !app_assoc.
Qed.

Lemma b64encode_all_chars (P : ascii -> bool) :
  (forall v, (v < 64)%N -> P (b64_char v) = true) ->
  P "="%char = true ->
  forall bs, all_chars P (b64encode bs) = true.
Proof.
  intros Hv Hp.
  induction bs as [|x|x y|x y z rest IH] using list_ind3.
  - reflexivity.
  - fields x. cbn [b64encode all_chars].
    rewrite <- (N.lor_0_r (N.shiftl (N.land (Byte.to_N x) 3) 4)).
    rewrite !Hv, Hp; try sextet; try reflexivity.
    apply N.ltb_lt, sextet_hi_lo; [assumption|lia].
  - fields x. fields y. cbn [b64encode all_chars].
    rewrite <- (N.lor_0_r (N.shiftl (N.land (Byte.to_N y) 15) 2)).
    rewrite !Hv, Hp; try sextet; try reflexivity.
    apply N.ltb_lt, sextet_lo_hi; [assumption|lia].
  - fields x. fields y. fields z.
    change (b64encode (x :: y :: z :: rest))
      with (String (b64_char (N.shiftr (Byte.to_N x) 2))
              (String (b64_char (N.lor (N.shiftl (N.land (Byte.to_N x) 3) 4)
                                       (N.shiftr (Byte.to_N y) 4)))
                 (String (b64_char (N.lor (N.shiftl (N.land (Byte.to_N y) 15) 2)
                                          (N.shiftr (Byte.to_N z) 6)))
                    (String (b64_char (N.land (Byte.to_N z) 63))
                       (b64encode rest))))).
    cbn [all_chars]. rewrite !Hv, IH; try sextet. reflexivity.
Qed.

Lemma is_ascii_all_chars (s : string) :
  is_ascii s = all_chars (fun c => (code c <? 128)%N) s.
Proof.
  induction s as [|c s IH]; cbn; [reflexivity|now rewrite IH].
Qed.

(** [b64decode] undoes [b64encode]. *)
Lemma b64decode_b64encode (bs : list byte) :
  b64decode (b64encode bs) = Return bs.
Proof.
  unfold b64decode, a2b_base64.
  rewrite is_ascii_all_chars, b64encode_all_chars.
  - apply a2b_loop_b64encode.
  - intros v Hv. apply (alphabet_facts v Hv).
  - reflexivity.
Qed.

Lemma span_all (p : ascii -> bool) (a b : string) :
  all_chars p a = true ->
  match b with EmptyString => True | String c _ => p c = false end ->
  span p (a ++ b) = (a, b).
Proof.
  intros Ha Hb. induction a as [|c a IH].
  - destruct b as [|c r]; [reflexivity|]. cbn [append span]. now rewrite Hb.
  - cbn [all_chars] in Ha. apply andb_true_iff in Ha. destruct Ha as [Hc Ha].
    cbn [append span]. now rewrite Hc, (IH Ha).
Qed.

(** The pattern reads back the pieces a data URI was built from. *)
Lemma data_url_match_data_uri (mime : string) (bs : list byte) :
  all_chars is_mime_char mime = true ->
  data_url_match (data_uri mime bs)
  = Some (mkGroups mime None (Some ";base64") (b64encode bs)).
Proof.
  intros Hm. unfold data_uri, data_url_match.
  change (strip "data:" ("data:" ++ mime ++ ";base64," ++ b64encode bs))
    with (Some (mime ++ ";base64," ++ b64encode bs)).
  cbv iota beta.
  rewrite (span_all is_mime_char mime (";base64," ++ b64encode bs) Hm)
    by reflexivity.
  cbn.
  rewrite <- (append_empty_r (b64encode bs)) at 1.
  rewrite (span_all is_dot (b64encode bs) "");
    [ reflexivity | | exact I ].
  apply b64encode_all_chars; [|reflexivity].
  intros v Hv. apply (alphabet_facts v Hv).
Qed.

(** An encoding is valid base64. *)
Lemma valid_base64_b64encode (bs : list byte) :
  valid_base64 (b64encode bs) = true.
Proof.
  assert (Hc : forall v, (v < 64)%N -> is_b64_char (b64_char v) = true).
  { intros v Hv. unfold is_b64_char.
    now rewrite (proj1 (alphabet_facts v Hv)). }
  unfold valid_base64. apply andb_true_iff.
  induction bs as [|x|x y|x y z rest IH] using list_ind3.
  - split; reflexivity.
  - fields x. split; [reflexivity|]. cbn [b64encode b64_body].
    rewrite <- (N.lor_0_r (N.shiftl (N.land (Byte.to_N x) 3) 4)).
    rewrite !Hc; try sextet; try reflexivity.
    apply N.ltb_lt, sextet_hi_lo; (assumption || lia).
  - fields x. fields y. split; [reflexivity|]. cbn [b64encode b64_body].
    rewrite <- (N.lor_0_r (N.shiftl (N.land (Byte.to_N y) 15) 2)).
    rewrite !Hc; try sextet; try reflexivity.
    apply N.ltb_lt, sextet_lo_hi; (assumption || lia).
  - fields x. fields y. fields z. destruct IH as [IHl IHb].
    change (b64encode (x :: y :: z :: rest))
      with (String (b64_char (N.shiftr (Byte.to_N x) 2))
              (String (b64_char (N.lor (N.shiftl (N.land (Byte.to_N x) 3) 4)
                                       (N.shiftr (Byte.to_N y) 4)))
                 (String (b64_char (N.lor (N.shiftl (N.land (Byte.to_N y) 15) 2)
                                          (N.shiftr (Byte.to_N z) 6)))
                    (String (b64_char (N.land (Byte.to_N z) 63))
                       (b64encode rest))))).
    split.
    + cbn [String.length].
      apply Nat.eqb_eq in IHl. apply Nat.eqb_eq.
      change (S (S (S (S (String.length (b64encode rest))))))
        with (4 + String.length (b64encode rest))%nat.
      rewrite <- Nat.Div0.add_mod_idemp_l. exact IHl.
    + cbn [b64_body]. rewrite !Hc; sextet.
Qed.

(** ** Valid base64 is accepted by the decoder *)

Lemma is_b64_char_facts (c : ascii) :
  is_b64_char c = true ->
  Ascii.eqb c "=" = false /\ (code c <? 128)%N = true.
Proof.
  destruct c as [[] [] [] [] [] [] [] []]; vm_compute; intros H;
    try discriminate H; split; reflexivity.
Qed.

Lemma b64_body_is_ascii (s : string) : b64_body s = true -> is_ascii s = true.
Proof.
  induction s as [|c s IH]; [reflexivity|].
  cbn [b64_body is_ascii]. destruct (is_b64_char c) eqn:Hc.
  - intros H. rewrite (proj2 (is_b64_char_facts c Hc)). now apply IH.
  - intros H. apply orb_true_iff in H.
    destruct H as [H|H]; apply String.eqb_eq in H;
      injection H as -> ->; reflexivity.
Qed.

Lemma string_ind4 (P : string -> Prop) :
  P EmptyString ->
  (forall a, P (String a EmptyString)) ->
  (forall a b, P (String a (String b EmptyString))) ->
  (forall a b c, P (String a (String b (String c EmptyString)))) ->
  (forall a b c d s, P s -> P (String a (String b (String c (String d s))))) ->
  forall s, P s.
Proof.
  intros H0 H1 H2 H3 H4. fix IH 1.
  intros [|a [|b [|c [|d s]]]];
    [exact H0 | apply H1 | apply H2 | apply H3 | apply H4, IH].
Qed.

(** One character of the alphabet through the loop, by its value. *)
Lemma a2b_loop_value (c : ascii) (v : N) (rest : string) (q l p : N)
  (out : list byte) :
  b64_value c = Some v ->
  a2b_loop (String c rest) q l p out
  = if (q =? 0)%N then a2b_loop rest 1%N v 0%N out
    else if (q =? 1)%N then
      a2b_loop rest 2%N (N.land v 15) 0%N
        (to_byte (N.lor (N.shiftl l 2) (N.shiftr v 4)) :: out)
    else if (q =? 2)%N then
      a2b_loop rest 3%N (N.land v 3) 0%N
        (to_byte (N.lor (N.shiftl l 4) (N.shiftr v 2)) :: out)
    else
      a2b_loop rest 0%N 0%N 0%N (to_byte (N.lor (N.shiftl l 6) v) :: out).
Proof.
  intros Hv.
  assert (Hc : is_b64_char c = true) by (unfold is_b64_char; now rewrite Hv).
  cbn [a2b_loop]. rewrite (proj1 (is_b64_char_facts c Hc)), Hv. reflexivity.
Qed.

Lemma is_b64_char_value (c : ascii) :
  is_b64_char c = true -> exists v, b64_value c = Some v.
Proof.
  unfold is_b64_char. destruct (b64_value c) as [v|]; [eauto|discriminate].
Qed.

Ltac not_padding H :=
  apply orb_true_iff in H; destruct H as [H|H];
  apply String.eqb_eq in H; discriminate H.

(** The loop accepts valid base64, and writes at least one byte unless
    there was nothing to read. *)
Lemma a2b_loop_valid (s : string) :
  valid_base64 s = true ->
  forall (l p : N) (out : list byte),
    exists bs, a2b_loop s 0%N l p out = Return (rev out ++ bs)%list
               /\ (s <> EmptyString -> bs <> []).
Proof.
  unfold valid_base64.
  induction s as [|a|a b|a b c|a b c d s IH] using string_ind4;
    intros H l p out; try discriminate H.
  - exists []. cbn. rewrite app_nil_r. split; [reflexivity|congruence].
  - apply andb_true_iff in H. destruct H as [Hlen Hbody].
    cbn [b64_body] in Hbody.
    destruct (is_b64_char a) eqn:Ha; [|not_padding Hbody].
    destruct (is_b64_char b) eqn:Hb; [|not_padding Hbody].
    destruct (is_b64_char_value a Ha) as [va Hva].
    destruct (is_b64_char_value b Hb) as [vb Hvb].
    rewrite (a2b_loop_value a va _ _ _ _ _ Hva). cbn [N.eqb].
    rewrite (a2b_loop_value b vb _ _ _ _ _ Hvb). cbn [N.eqb Pos.eqb].
    destruct (is_b64_char c) eqn:Hc.
    + destruct (is_b64_char_value c Hc) as [vc Hvc].
      rewrite (a2b_loop_value c vc _ _ _ _ _ Hvc). cbn [N.eqb Pos.eqb].
      destruct (is_b64_char d) eqn:Hd.
      * destruct (is_b64_char_value d Hd) as [vd Hvd].
        rewrite (a2b_loop_value d vd _ _ _ _ _ Hvd). cbn [N.eqb Pos.eqb].
        assert (Hs : Nat.eqb (String.length s mod 4) 0 && b64_body s = true).
        { apply andb_true_iff. split; [|exact Hbody].
          apply Nat.eqb_eq in Hlen. apply Nat.eqb_eq.
          cbn [String.length] in Hlen.
          replace (S (S (S (S (String.length s)))))
            with (String.length s + 1 * 4)%nat in Hlen by lia.
          now rewrite Nat.Div0.mod_add in Hlen. }
        match goal with
        | |- context [a2b_loop s _ _ _ ?o] =>
            destruct (IH Hs 0%N 0%N o) as [bs [Hbs _]];
            rewrite Hbs; cbn [rev]
        end.
        eexists. rewrite <- !app_assoc. cbn [app].
        split; [reflexivity|discriminate].
      * apply orb_true_iff in Hbody.
        destruct Hbody as [E|E]; apply String.eqb_eq in E.
        -- injection E as -> ->. cbn. eexists. rewrite <- !app_assoc.
           cbn [app]. split; [reflexivity|discriminate].
        -- injection E as -> ->. vm_compute in Hlen. discriminate Hlen.
    + apply orb_true_iff in Hbody.
      destruct Hbody as [E|E]; apply String.eqb_eq in E.
      * discriminate E.
      * injection E as -> -> ->. cbn. eexists. split; [reflexivity|discriminate].
Qed.

Lemma valid_base64_decodes (s : string) :
  valid_base64 s = true ->
  exists bs, b64decode s = Return bs /\ (s <> EmptyString -> bs <> []).
Proof.
  intros H. unfold b64decode, a2b_base64.
  assert (Ha : is_ascii s = true).
  { apply b64_body_is_ascii. unfold valid_base64 in H.
    now apply andb_true_iff in H. }
  rewrite Ha. exact (a2b_loop_valid s H 0%N 0%N []).
Qed.

(** An image data URI whose payload decodes to at least one byte is
    served from the URL itself: the bytes are returned and no request is
    made, whatever the kind asked for. *)
Lemma inline_bytes_returned
  (net : Network) (url content_type : string) (g : groups) (bs : list byte) :
  data_url_match url = Some g ->
  str_in "image" (g_mime g) = true ->
  g_encoding g = Some ";base64" ->
  b64decode (g_data g) = Return bs ->
  bs <> [] ->
  get_content net url content_type = mkRun [] (Return (VBytes bs)).
Proof.
  intros Hm Hi He Hd Hne. apply get_content_inline.
  - rewrite (check_data_url_base64 url g Hm Hi He), Hd. reflexivity.
  - destruct bs; [contradiction|reflexivity].
Qed.

(** The same for a payload that is valid base64 and not empty. *)
Lemma inline_valid_base64_returned
  (net : Network) (url content_type : string) (g : groups) :
  data_url_match url = Some g ->
  str_in "image" (g_mime g) = true ->
  g_encoding g = Some ";base64" ->
  valid_base64 (g_data g) = true ->
  g_data g <> EmptyString ->
  exists bs,
    b64decode (g_data g) = Return bs
    /\ get_content net url content_type = mkRun [] (Return (VBytes bs)).
Proof.
  intros Hm Hi He Hv Hne.
  destruct (valid_base64_decodes (g_data g) Hv) as [bs [Hd Hbs]].
  exists bs. split; [exact Hd|].
  apply (inline_bytes_returned net url content_type g bs); auto.
Qed.

(** Round trip of a payload that has at least one byte. *)
Lemma data_uri_round_trip
  (net : Network) (mime content_type : string) (bs : list byte) :
  all_chars is_mime_char mime = true ->
  str_in "image" mime = true ->
  bs <> [] ->
  get_content net (data_uri mime bs) content_type
  = mkRun [] (Return (VBytes bs)).
Proof.
  intros Hm Hi Hne.
  apply (inline_bytes_returned net _ content_type
           (mkGroups mime None (Some ";base64") (b64encode bs)) bs);
    try assumption; try reflexivity.
  - now apply data_url_match_data_uri.
  - apply b64decode_b64encode.
Qed.

(** C1. A well-formed base64 image data URI should give back its decoded
    bytes without any request, and the round trip through [b64encode]
    should be the identity.  It is so for a payload of at least one byte
    ([inline_bytes_returned], [data_uri_round_trip]).  For the empty
    payload it is not: the URI is well formed, the decoder returns the
    empty [bytes], and [get_content] takes that for "not a data URL" and
    hands the data URI to the HTTP client. *)
Theorem C1_empty_payload_goes_to_network :
  data_uri "image/png" [] = "data:image/png;base64,"
  /\ valid_base64 (b64encode []) = true
  /\ check_data_url (data_uri "image/png" []) = Return (VBytes [])
  /\ (forall net : Network,
         get_content net (data_uri "image/png" []) "image"
         = mkRun ["data:image/png;base64,"]
             (fetch_remote net "data:image/png;base64," "image"))
  /\ get_content (fun _ => Raise InvalidURL) (data_uri "image/png" []) "image"
     = mkRun ["data:image/png;base64,"] (Raise InvalidInput)
  /\ get_content (fun _ => Raise InvalidURL) (data_uri "image/png" []) "image"
     <> mkRun [] (Return (VBytes [])).
Proof.
  repeat split; try reflexivity. discriminate.
Qed.

(** ** Payloads the decoder rejects, and payloads it lets through *)

(** The decoding loop raises nothing but [binascii.Error]. *)
Lemma a2b_loop_raises (s : string) :
  forall (q l p : N) (out : list byte) (e : exn),
    a2b_loop s q l p out = Raise e -> exists msg, e = binascii_Error msg.
Proof.
  induction s as [|c s IH]; intros q l p out e H; cbn [a2b_loop] in H;
    repeat match type of H with
           | context [if ?b then _ else _] => destruct b
           | context [match ?o with Some _ => _ | None => _ end] => destruct o
           end;
    try discriminate;
    try (injection H as <-; eexists; reflexivity);
    eapply IH; eassumption.
Qed.

Lemma b64decode_raises (s : string) (e : exn) :
  b64decode s = Raise e -> is_DecodeError e = true.
Proof.
  unfold b64decode, a2b_base64. destruct (is_ascii s).
  - intros H. apply a2b_loop_raises in H. destruct H as [msg ->]. reflexivity.
  - intros H. injection H as <-. reflexivity.
Qed.





(** ** What is returned, and when *)

Lemma is_DecodeError_classified (e : exn) :
  is_DecodeError e = true -> classified e = true.
Proof.
  destruct e; cbn; intros H;
    try discriminate; try reflexivity; try exact H.
  rewrite H. now rewrite !orb_true_r.
Qed.

(** Not every call that returns nothing ends in a classified error:
    only three classes of transport exception are caught, so when the GET
    raises another one (here the redirect limit) that exception reaches
    the caller as it is. *)
Lemma classified_errors_not_exhaustive :
  ~ (forall (net : Network) (url content_type : string),
       (forall v, result (get_content net url content_type) = Return v ->
          got_200 net url = true \/ parsed_inline url = true)
       /\ (got_200 net url = false ->
           parsed_inline url = false ->
           exists e, result (get_content net url content_type) = Raise e
                     /\ classified e = true)).
Proof.
  intros H.
  destruct (H (fun _ => Raise (OtherException "TooManyRedirects"))
              "https://example.com/loop" "image") as [_ H2].
  destruct (H2 eq_refl eq_refl) as [e [He Hc]].
  vm_compute in He. injection He as <-. discriminate Hc.
Qed.

(** A value comes back only from an inline data URI, and then no request
    was made, or after a response with status 200. *)
Lemma value_only_from_200_or_inline
  (net : Network) (url content_type : string) (v : value) :
  result (get_content net url content_type) = Return v ->
  (parsed_inline url = true
   /\ requests (get_content net url content_type) = [])
  \/ (got_200 net url = true
      /\ requests (get_content net url content_type) = [url]).
Proof.
  unfold get_content, parsed_inline, got_200, fetch_remote.
  destruct (check_data_url url) as [data|e]; cbn; [|discriminate].
  destruct (truthy data) eqn:Ht; cbn.
  - intros _. left. split; [|reflexivity].
    destruct data; try reflexivity. discriminate Ht.
  - intros H. right. split; [|reflexivity].
    destruct (net url) as [r|e]; cbn in H.
    + unfold read_response in H.
      destruct (status r =? 200)%Z; [reflexivity|discriminate H].
    + destruct e; discriminate H.
Qed.

(** On the network path, each way of not getting a status 200 and the
    error it ends in: the status error for another status, the three
    messages for the three classes caught, in the order of the clauses,
    and the exception itself for any other. *)
Lemma network_failures_by_cause
  (net : Network) (url content_type : string) :
  takes_network_path url = true ->
  (forall r, net url = Return r -> status r <> 200%Z ->
     get_content net url content_type
     = mkRun [url] (Raise (BadResponse (status r))))
  /\ (forall e, net url = Raise e ->
        isinstance e cls_InvalidURL = true ->
        get_content net url content_type = mkRun [url] (Raise InvalidInput))
  /\ (forall e, net url = Raise e ->
        isinstance e cls_InvalidURL = false ->
        isinstance e cls_TimeoutError = true ->
        get_content net url content_type = mkRun [url] (Raise Timeout))
  /\ (forall e, net url = Raise e ->
        isinstance e cls_InvalidURL = false ->
        isinstance e cls_TimeoutError = false ->
        isinstance e cls_ClientConnectionError = true ->
        get_content net url content_type
        = mkRun [url] (Raise ConnectionFailed))
  /\ (forall e, net url = Raise e ->
        uncaught e = true ->
        get_content net url content_type = mkRun [url] (Raise e)).
Proof.
  intros Hp. rewrite (get_content_remote net url content_type Hp).
  unfold fetch_remote, read_response.
  split; [|split; [|split; [|split]]].
  - intros r Hn Hs. rewrite Hn. cbn [bind].
    apply Z.eqb_neq in Hs. rewrite Hs. reflexivity.
  - intros e Hn H1. rewrite Hn. cbn [bind]. unfold except_clauses.
    now rewrite H1.
  - intros e Hn H1 H2. rewrite Hn. cbn [bind]. unfold except_clauses.
    now rewrite H1, H2.
  - intros e Hn H1 H2 H3. rewrite Hn. cbn [bind]. unfold except_clauses.
    now rewrite H1, H2, H3.
  - intros e Hn Hu. rewrite Hn. cbn [bind]. unfold except_clauses.
    unfold uncaught in Hu. apply negb_true_iff in Hu.
    apply orb_false_iff in Hu. destruct Hu as [Hu H3].
    apply orb_false_iff in Hu. destruct Hu as [H1 H2].
    now rewrite H1, H2, H3.
Qed.

(** A data URI turned down for its media type, or whose base64 payload
    the decoder rejects, raises a classified error and no request is
    made. *)
Lemma inline_failures_classified
  (net : Network) (url content_type : string) (g : groups) (e : exn) :
  data_url_match url = Some g ->
  str_in "image" (g_mime g) = false \/ g_encoding g = Some ";base64" ->
  check_data_url url = Raise e ->
  get_content net url content_type = mkRun [] (Raise e)
  /\ classified e = true.
Proof.
  intros Hm Hor Hc. split; [now apply get_content_raises|].
  destruct (str_in "image" (g_mime g)) eqn:Hi.
  - destruct Hor as [Hor|He]; [discriminate|].
    rewrite (check_data_url_base64 url g Hm Hi He) in Hc.
    apply is_DecodeError_classified, (b64decode_raises (g_data g)).
    destruct (b64decode (g_data g)); cbn in Hc; [discriminate|].
    now injection Hc as <-.
  - rewrite (check_data_url_not_image url g Hm Hi) in Hc.
    injection Hc as <-. reflexivity.
Qed.

(** C8. A value is returned only after a status 200 or from an inline
    data URI ([value_only_from_200_or_inline]), and every other condition
    should end in one of the classified errors; the docstring of
    [get_content] says as much: it raises [BadResponseError] or
    [ValueError].  A status other than 200 and the three classes of
    exception caught do ([network_failures_by_cause]).  But the [try]
    statement has no clause for the other exceptions of aiohttp: when
    the server keeps redirecting, the GET raises [TooManyRedirects], and
    [get_content] lets it through as it is: no value, no status 200, no
    inline data, and an error that is neither classified nor one the
    docstring names. *)
Theorem C8_unlisted_exception_reaches_caller
  (net : Network) (url content_type : string) :
  data_url_match url = None ->
  net url = Raise (OtherException "TooManyRedirects") ->
  got_200 net url = false
  /\ parsed_inline url = false
  /\ get_content net url content_type
     = mkRun [url] (Raise (OtherException "TooManyRedirects"))
  /\ classified (OtherException "TooManyRedirects") = false
  /\ documented (OtherException "TooManyRedirects") = false.
Proof.
  intros Hm Hn.
  assert (Hp : takes_network_path url = true)
    by now apply no_match_takes_network_path.
  repeat split.
  - unfold got_200. now rewrite Hn.
  - unfold parsed_inline. now rewrite (check_data_url_no_match url Hm).
  - exact (proj2 (proj2 (proj2 (proj2
             (network_failures_by_cause net url content_type Hp))))
             _ Hn eq_refl).
Qed.

Lemma C8_unlisted_exception_witness :
  get_content (fun _ => Raise (OtherException "TooManyRedirects"))
    "https://example.com/loop" "image"
  = mkRun ["https://example.com/loop"]
      (Raise (OtherException "TooManyRedirects")).
Proof.
  apply (C8_unlisted_exception_reaches_caller
           (fun _ => Raise (OtherException "TooManyRedirects"))
           "https://example.com/loop" "image"); reflexivity.
Defined.

(** * Further properties of the fetcher *)

(** X1. Round trip: under a media type that contains "image" and is
    written with the characters the pattern reads in a media type
    (letters, digits, underscore, [/], [+], [-]), bytes, at least one,
    written as a base64 data URI come back unchanged from [get_content],
    for every kind asked for and without any request. *)
Theorem X1_data_uri_round_trip
  (net : Network) (mime content_type : string) (bs : list byte) :
  all_chars is_mime_char mime = true ->
  str_in "image" mime = true ->
  bs <> [] ->
  get_content net (data_uri mime bs) content_type
  = mkRun [] (Return (VBytes bs)).
Proof.
  intros Hm Hi Hne. now apply data_uri_round_trip.
Qed.

Lemma X1_data_uri_round_trip_witness :
  get_content (fun _ => Raise InvalidURL)
    (data_uri "image/svg+xml" ["<"%byte; "s"%byte; "v"%byte; "g"%byte])
    "json"
  = mkRun [] (Return (VBytes ["<"%byte; "s"%byte; "v"%byte; "g"%byte])).
Proof.
  apply (X1_data_uri_round_trip (fun _ => Raise InvalidURL) "image/svg+xml"
           "json" ["<"%byte; "s"%byte; "v"%byte; "g"%byte]);
    [reflexivity | reflexivity | discriminate].
Defined.

(** What [check_data_url] can return, and from what. *)
Lemma check_data_url_returns (url : string) (v : value) :
  check_data_url url = Return v ->
  (v = VNone /\ data_url_match url = None)
  \/ (exists g bs,
         v = VBytes bs
         /\ data_url_match url = Some g
         /\ str_in "image" (g_mime g) = true
         /\ g_encoding g = Some ";base64"
         /\ b64decode (g_data g) = Return bs).
Proof.
  unfold check_data_url.
  destruct (data_url_match url) as [g|] eqn:Hm.
  - destruct (str_in "image" (g_mime g)) eqn:Hi; cbn [negb]; [|discriminate].
    destruct (data_url_match_encoding url g Hm) as [He|He]; rewrite He; cbn;
      [discriminate|].
    destruct (b64decode (g_data g)) as [bs|e] eqn:Hd; cbn; [|discriminate].
    intros H. injection H as <-. right. exists g, bs. auto.
  - intros H. injection H as <-. now left.
Qed.



Lemma all_chars_append (p : ascii -> bool) (a b : string) :
  all_chars p (a ++ b) = all_chars p a && all_chars p b.
Proof.
  induction a as [|c a IH]; cbn; [reflexivity|].
  now rewrite IH, andb_assoc.
Qed.

Lemma all_chars_weaken (p q : ascii -> bool) (s : string) :
  (forall c, p c = true -> q c = true) ->
  all_chars p s = true -> all_chars q s = true.
Proof.
  intros Hpq. induction s as [|c s IH]; cbn; [reflexivity|].
  intros H. apply andb_true_iff in H. destruct H as [Hc Hs].
  now rewrite (Hpq c Hc), (IH Hs).
Qed.

(** A line feed is in neither class of the pattern. *)
Lemma mime_char_is_dot (c : ascii) : is_mime_char c = true -> is_dot c = true.
Proof.
  unfold is_dot. destruct (Ascii.eqb_spec c "010") as [->|]; [|reflexivity].
  vm_compute. discriminate.
Qed.

Lemma charset_char_is_dot (c : ascii) :
  is_charset_char c = true -> is_dot c = true.
Proof.
  unfold is_dot. destruct (Ascii.eqb_spec c "010") as [->|]; [|reflexivity].
  vm_compute. discriminate.
Qed.

(** A text without line feed that starts [s] followed by a line feed
    starts [s]. *)
Lemma starts_before_line_feed (p rest s tail : string) :
  all_chars is_dot p = true ->
  p ++ rest = s ++ String "010" tail ->
  exists r, s = p ++ r.
Proof.
  revert s. induction p as [|c p IH]; intros s Hp H.
  - now exists s.
  - cbn in Hp. apply andb_true_iff in Hp. destruct Hp as [Hc Hp].
    destruct s as [|c' s]; cbn in H; injection H as -> H.
    + discriminate Hc.
    + destruct (IH s Hp H) as [r ->]. now exists r.
Qed.

(** What the pattern reads holds no line feed. *)
Lemma matched_text_has_no_line_feed (url : string) (g : groups) (rest : string) :
  matches_as url g rest ->
  exists p, url = p ++ rest
            /\ all_chars is_dot p = true
            /\ forall rest', matches_as (p ++ rest') g rest'.
Proof.
  intros (Hurl & Hm & Hc & He & Hd).
  exists ("data:" ++ g_mime g ++ opt_text (g_charset g)
          ++ opt_text (g_encoding g) ++ "," ++ g_data g).
  split; [|split].
  - rewrite Hurl. now rewrite !append_assoc.
  - rewrite !all_chars_append.
    rewrite (all_chars_weaken _ _ _ mime_char_is_dot Hm), Hd.
    assert (Hcs : all_chars is_dot (opt_text (g_charset g)) = true).
    { unfold charset_group_ok in Hc. destruct (g_charset g) as [cs|];
        [|reflexivity].
      destruct (strip ";charset=" cs) as [[|c name]|] eqn:Hs;
        try discriminate Hc.
      apply strip_Some in Hs. subst cs. cbn [opt_text].
      rewrite all_chars_append.
      now rewrite (all_chars_weaken _ _ _ charset_char_is_dot Hc). }
    assert (Hen : all_chars is_dot (opt_text (g_encoding g)) = true).
    { unfold encoding_group_ok in He. destruct (g_encoding g) as [e|];
        [|reflexivity].
      apply String.eqb_eq in He. now subst e. }
    rewrite Hcs, Hen. reflexivity.
  - intros rest'. unfold matches_as. repeat split; try assumption.
    now rewrite !append_assoc.
Qed.

Lemma line_feed_stops_payload (r tail : string) :
  stops is_dot r -> fst (span is_dot (r ++ String "010" tail)) = EmptyString.
Proof.
  destruct r as [|c r]; cbn; [reflexivity|]. now intros ->.
Qed.

Lemma data_url_match_before_line_feed (url tail : string) :
  data_url_match (url ++ String "010" tail) = data_url_match url.
Proof.
  destruct (data_url_match url) as [g|] eqn:Hm.
  - destruct (data_url_match_sound url g Hm) as [r [M Hr]].
    destruct (matched_text_has_no_line_feed url g r M) as (p & -> & _ & Hp).
    rewrite append_assoc.
    rewrite (data_url_match_complete _ g _ (Hp (r ++ String "010" tail))).
    rewrite (line_feed_stops_payload r tail Hr), append_empty_r.
    now destruct g.
  - destruct (data_url_match (url ++ String "010" tail)) as [g|] eqn:Hl;
      [|reflexivity].
    destruct (data_url_match_sound _ g Hl) as [rest [M _]].
    destruct (matched_text_has_no_line_feed _ g rest M) as (p & E & Hd & Hp).
    destruct (starts_before_line_feed p rest url tail Hd (eq_sym E))
      as [r ->].
    rewrite (data_url_match_complete _ g r (Hp r)) in Hm. discriminate Hm.
Qed.

Example second_line_is_not_read :
  check_data_url
    ("data:image/png;base64,QUJD" ++ String "010" "RUZH")
  = Return (VBytes ["A"%byte; "B"%byte; "C"%byte]).
Proof. reflexivity. Qed.

(** X3. Nothing that follows a line feed in the URL is read: for every
    URL, [check_data_url] gives for the URL followed by a line feed and
    any text what it gives for the URL alone, the pattern matching with
    the same groups or not at all.  A base64 payload broken over several
    lines is thus decoded from its first line only. *)
Theorem X3_payload_ends_at_line_feed (url tail : string) :
  data_url_match (url ++ String "010" tail) = data_url_match url
  /\ check_data_url (url ++ String "010" tail) = check_data_url url.
Proof.
  split; [apply data_url_match_before_line_feed|].
  unfold check_data_url. now rewrite data_url_match_before_line_feed.
Qed.

Lemma headers_getitem_raises (hs : list (string * string)) (key : string)
  (e : exn) :
  headers_getitem hs key = Raise e -> e = KeyError key.
Proof.
  induction hs as [|[k v] hs IH]; cbn.
  - intros H. now injection H as <-.
  - destruct (String.eqb (lower k) (lower key)); [discriminate|exact IH].
Qed.

(** X4. Kind [image], status 200, and a response without a
    [content-type] header: the lookup raises [KeyError], no [except]
    clause catches it and it reaches the caller; the same response asked
    for as [bytes] gives its body. *)
Theorem X4_missing_content_type_header
  (net : Network) (url : string) (r : ClientResponse) (e : exn) :
  takes_network_path url = true ->
  net url = Return r ->
  status r = 200%Z ->
  headers_getitem (headers r) "content-type" = Raise e ->
  get_content net url "image" = mkRun [url] (Raise (KeyError "content-type"))
  /\ (forall body, read r = Return body ->
        get_content net url "bytes" = mkRun [url] (Return (VBytes body))).
Proof.
  intros Hp Hn Hs Hh.
  rewrite (headers_getitem_raises _ _ _ Hh) in Hh.
  rewrite !get_content_remote by exact Hp.
  unfold fetch_remote, read_response. rewrite Hn. cbn [bind]. rewrite Hs.
  cbn. rewrite Hh. split; [reflexivity|].
  intros body Hb. now rewrite Hb.
Qed.

Lemma X4_missing_content_type_witness :
  get_content
    (fun _ => Return (mkResponse 200 [("Server", "nginx")]
                        (Return ["h"%byte]) (Return JNull)))
    "https://example.com/a.png" "image"
  = mkRun ["https://example.com/a.png"] (Raise (KeyError "content-type")).
Proof.
  apply (X4_missing_content_type_header
           (fun _ => Return (mkResponse 200 [("Server", "nginx")]
                               (Return ["h"%byte]) (Return JNull)))
           "https://example.com/a.png"
           (mkResponse 200 [("Server", "nginx")] (Return ["h"%byte])
              (Return JNull))
           (KeyError "content-type")); reflexivity.
Defined.

(** X6. What [get_content] returns without a request is [bytes] with at
    least one byte. *)
Theorem X6_inline_value_is_nonempty_bytes
  (net : Network) (url content_type : string) (v : value) :
  get_content net url content_type = mkRun [] (Return v) ->
  exists b bs, v = VBytes (b :: bs).
Proof.
  unfold get_content.
  destruct (check_data_url url) as [data|e] eqn:Hc; [|discriminate].
  destruct (truthy data) eqn:Ht; [|discriminate].
  intros H. injection H as <-.
  destruct (check_data_url_returns url data Hc)
    as [[-> _] | (g & bs & -> & _)]; [discriminate Ht|].
  destruct bs as [|b bs]; [discriminate Ht|]. eauto.
Qed.

Lemma X6_inline_value_witness :
  exists b bs, VBytes ["A"%byte; "B"%byte; "C"%byte] = VBytes (b :: bs).
Proof.
  apply (X6_inline_value_is_nonempty_bytes (fun _ => Raise InvalidURL)
           "data:image/png;base64,QUJD" "bytes"). reflexivity.
Defined.

(** X7. A URL is taken for a data URL exactly when it starts with a text
    of the form [data:], a media type, an optional [;charset=] with a
    name, an optional [;base64], a comma and a payload. *)
Theorem X7_data_url_grammar (url : string) :
  data_url_match url <> None <-> exists g rest, matches_as url g rest.
Proof.
  split.
  - destruct (data_url_match url) as [g|] eqn:H; [|congruence].
    intros _. destruct (data_url_match_sound url g H) as [rest [M _]].
    now exists g, rest.
  - intros (g & rest & M).
    rewrite (data_url_match_complete url g rest M). discriminate.
Qed.



(** X19. A body that cannot be parsed is not reclassified: with status
    200 and kind [json], an exception raised by [r.json()] that is none
    of the three classes caught (a [JSONDecodeError], a wrong content
    type) reaches the caller as it is. *)
Theorem X19_json_error_passes_unchanged
  (net : Network) (url : string) (r : ClientResponse) (e : exn) :
  takes_network_path url = true ->
  net url = Return r ->
  status r = 200%Z ->
  json_body r = Raise e ->
  uncaught e = true ->
  get_content net url "json" = mkRun [url] (Raise e).
Proof.
  intros Hp Hn Hs Hj Hu.
  rewrite (get_content_remote net url "json" Hp).
  unfold fetch_remote, read_response. rewrite Hn. cbn [bind]. rewrite Hs.
  cbn. rewrite Hj.
  destruct e; try discriminate Hu; reflexivity.
Qed.

Lemma X19_json_error_witness :
  get_content
    (fun _ => Return (mkResponse 200 [("Content-Type", "application/json")]
                        (Return ["{"%byte])
                        (Raise (JSONDecodeError "Expecting property name"))))
    "https://example.com/a.json" "json"
  = mkRun ["https://example.com/a.json"]
      (Raise (JSONDecodeError "Expecting property name")).
Proof.
  apply (X19_json_error_passes_unchanged
           (fun _ => Return (mkResponse 200
                               [("Content-Type", "application/json")]
                               (Return ["{"%byte])
                               (Raise (JSONDecodeError "Expecting property name"))))
           "https://example.com/a.json"
           (mkResponse 200 [("Content-Type", "application/json")]
              (Return ["{"%byte])
              (Raise (JSONDecodeError "Expecting property name")))
           (JSONDecodeError "Expecting property name")); reflexivity.
Defined.

(** * Properties of the other helpers *)

(** ** The models on a few inputs *)

Example ordinal_21 : ordinal 21 = "21st".
Proof. reflexivity. Qed.

Example ordinal_112 : ordinal 112 = "112th".
Proof. reflexivity. Qed.

Example ordinal_minus_9 : ordinal (-9) = "-9st".
Proof. reflexivity. Qed.

Example chunk_7_in_3 :
  chunk [1; 2; 3; 4; 5; 6; 7]%nat 3
  = Return [[1; 2; 3]; [4; 5]; [6; 7]]%nat.
Proof. reflexivity. Qed.

Example chunk_3_in_5 :
  chunk [1; 2; 3]%nat 5 = Return [[1]; [2]; [3]; []; []]%nat.
Proof. reflexivity. Qed.

Example bar_half_of_4 :
  make_progress_bar (Int 50) 4
  = Return [8203; 9608; 8203; 9608; 32; 32]%N.
Proof. vm_compute. reflexivity. Qed.

Example bar_29_of_100_cells :
  bar_index (Int 29) 100 = Return 28%Z.
Proof. vm_compute. reflexivity. Qed.

Example bar_index_of_2_pow_63 :
  bar_index (Int (2 ^ 63)) 20 = Return 1844674407370955264%Z.
Proof. vm_compute. reflexivity. Qed.

Example bar_index_past_2_pow_53 :
  bar_index (Int (2 ^ 53 + 1)) 20 = Return 1801439850948198%Z.
Proof. vm_compute. reflexivity. Qed.

Example bar_index_division_overflows :
  bar_index (Int (10 ^ 400)) 20 = Raise (OtherException "OverflowError").
Proof. vm_compute. reflexivity. Qed.

Example bar_index_width_overflows :
  bar_index (Int 5) (10 ^ 400) = Raise (OtherException "OverflowError").
Proof. vm_compute. reflexivity. Qed.

Example bar_of_2_pow_63_is_full :
  make_progress_bar (Int (2 ^ 63)) 3
  = Return [8203; 9608; 8203; 9608; 8203; 9608]%N.
Proof. vm_compute. reflexivity. Qed.

Example flag_of_afrikaans : get_lang_emoji "af" = Some [127487; 127462]%N.
Proof. vm_compute. reflexivity. Qed.

Example no_flag_for_esperanto : get_lang_emoji "eo" = None.
Proof. vm_compute. reflexivity. Qed.

(** ** [ordinal] *)











(** ** [chunk] *)

Lemma firstn_then_firstn {A : Type} (a : list A) (x y : nat) :
  (firstn x a ++ firstn y (skipn x a))%list = firstn (x + y) a.
Proof.
  revert a. induction x as [|x IH]; intros a; [reflexivity|].
  destruct a as [|h a]; cbn.
  - now rewrite firstn_nil.
  - now rewrite IH.
Qed.

Lemma slice_index_inside (len i : Z) :
  (0 <= i <= len)%Z -> slice_index len i = i.
Proof.
  intros H. unfold slice_index.
  destruct (Z.ltb_spec i 0); lia.
Qed.

Section Chunk.

Context {A : Type}.
Variable a : list A.
Variable n : Z.
Hypothesis n_pos : (0 < n)%Z.

Let len : Z := Z.of_nat (List.length a).
Let k : Z := (len / n)%Z.
Let m : Z := (len mod n)%Z.

(** Where the chunk of index [i] starts. *)
Let cut (i : Z) : Z := (i * k + Z.min i m)%Z.

Lemma chunk_divmod : (len = n * k + m /\ 0 <= k /\ 0 <= m < n)%Z.
Proof.
  unfold k, m. split; [apply Z.div_mod; lia|]. split.
  - apply Z.div_pos; unfold len; lia.
  - apply Z.mod_pos_bound; lia.
Qed.

Lemma cut_step (i : Z) :
  (0 <= i)%Z ->
  (cut (i + 1) - cut i = k + (if i <? m then 1 else 0))%Z.
Proof.
  intros Hi. unfold cut. destruct (Z.ltb_spec i m); lia.
Qed.

Lemma cut_bounds (i : Z) : (0 <= i <= n)%Z -> (0 <= cut i <= len)%Z.
Proof.
  intros Hi. destruct chunk_divmod as (E & Hk & Hm). unfold cut. nia.
Qed.

Lemma cut_n : cut n = len.
Proof.
  destruct chunk_divmod as (E & Hk & Hm). unfold cut. lia.
Qed.

Lemma chunk_returns :
  chunk a n
  = Return (map (fun i => py_slice a (cut i) (cut (i + 1))) (py_range n)).
Proof.
  unfold chunk, py_divmod. fold len.
  destruct (Z.eqb_spec n 0); [lia|]. reflexivity.
Qed.

Lemma slice_between_cuts (i : Z) :
  (0 <= i < n)%Z ->
  py_slice a (cut i) (cut (i + 1))
  = firstn (Z.to_nat (cut (i + 1) - cut i)) (skipn (Z.to_nat (cut i)) a).
Proof.
  intros Hi. unfold py_slice. fold len.
  rewrite !slice_index_inside by (apply cut_bounds; lia). reflexivity.
Qed.

Lemma chunks_up_to (j : nat) :
  (Z.of_nat j <= n)%Z ->
  concat (map (fun i => py_slice a (cut i) (cut (i + 1)))
            (map Z.of_nat (seq 0 j)))
  = firstn (Z.to_nat (cut (Z.of_nat j))) a.
Proof.
  induction j as [|j IH]; intros Hj.
  { pose proof (cut_bounds 0 ltac:(lia)) as Hc.
    replace (cut (Z.of_nat 0)) with 0%Z; [reflexivity|].
    unfold cut in *. destruct chunk_divmod as (_ & _ & Hm). cbn. lia. }
  rewrite seq_S, !map_app, concat_app, IH by lia. cbn [map concat Nat.add].
  rewrite app_nil_r, slice_between_cuts by lia.
  rewrite firstn_then_firstn. f_equal.
  pose proof (cut_step (Z.of_nat j) ltac:(lia)) as Hs.
  pose proof (cut_bounds (Z.of_nat j) ltac:(lia)).
  destruct chunk_divmod as (_ & Hk & _).
  replace (Z.of_nat (S j)) with (Z.of_nat j + 1)%Z by lia.
  destruct (Z.of_nat j <? m)%Z; lia.
Qed.

Lemma chunk_concat :
  exists chunks,
    chunk a n = Return chunks
    /\ concat chunks = a
    /\ Z.of_nat (List.length chunks) = n.
Proof.
  eexists. split; [apply chunk_returns|]. split.
  - unfold py_range. rewrite chunks_up_to by lia.
    rewrite Z2Nat.id by lia. rewrite cut_n. unfold len.
    rewrite Nat2Z.id. apply firstn_all.
  - unfold py_range. rewrite !length_map, length_seq. lia.
Qed.

Lemma chunk_sizes (chunks : list (list A)) (i : nat) (c : list A) :
  chunk a n = Return chunks ->
  nth_error chunks i = Some c ->
  Z.of_nat (List.length c) = (k + (if Z.of_nat i <? m then 1 else 0))%Z.
Proof.
  rewrite chunk_returns. intros H. injection H as <-.
  unfold py_range. rewrite !nth_error_map.
  destruct (nth_error (seq 0 (Z.to_nat n)) i) as [j|] eqn:Hj; [|discriminate].
  cbn [option_map]. intros H. injection H as <-.
  assert (Hlt : (i < List.length (seq 0 (Z.to_nat n)))%nat).
  { apply nth_error_Some. rewrite Hj. discriminate. }
  rewrite length_seq in Hlt.
  rewrite nth_error_seq in Hj.
  destruct (Nat.ltb_spec i (Z.to_nat n)); [|lia].
  injection Hj as <-. cbn [Nat.add].
  rewrite slice_between_cuts by lia.
  rewrite length_firstn, length_skipn.
  pose proof (cut_step (Z.of_nat i) ltac:(lia)) as Hs.
  pose proof (cut_bounds (Z.of_nat i) ltac:(lia)).
  pose proof (cut_bounds (Z.of_nat i + 1) ltac:(lia)).
  destruct chunk_divmod as (_ & Hk & _).
  unfold len in *.
  destruct (Z.of_nat i <? m)%Z; lia.
Qed.

End Chunk.

(** X11. For a positive [n], [chunk] returns exactly [n] sub-lists, and
    joined in order they are the list it was given: no element is lost,
    repeated or moved. *)
Theorem X11_chunk_concatenates {A : Type} (a : list A) (n : Z) :
  (0 < n)%Z ->
  exists chunks,
    chunk a n = Return chunks
    /\ concat chunks = a
    /\ Z.of_nat (List.length chunks) = n.
Proof.
  intros Hn. now apply chunk_concat.
Qed.

Lemma X11_chunk_concatenates_witness :
  exists chunks,
    chunk [1; 2; 3; 4; 5; 6; 7]%nat 3 = Return chunks
    /\ concat chunks = [1; 2; 3; 4; 5; 6; 7]%nat
    /\ Z.of_nat (List.length chunks) = 3%Z.
Proof.
  apply (X11_chunk_concatenates [1; 2; 3; 4; 5; 6; 7]%nat 3). lia.
Defined.

(** X12. With [k, m = divmod(len(a), n)] and [n] positive, the first [m]
    sub-lists have [k + 1] elements and the others [k]. *)
Theorem X12_chunk_sizes {A : Type} (a : list A) (n : Z)
  (chunks : list (list A)) (i : nat) (c : list A) :
  (0 < n)%Z ->
  chunk a n = Return chunks ->
  nth_error chunks i = Some c ->
  Z.of_nat (List.length c)
  = (Z.of_nat (List.length a) / n
     + (if Z.of_nat i <? Z.of_nat (List.length a) mod n then 1 else 0))%Z.
Proof.
  intros Hn Hc Hi. exact (chunk_sizes a n Hn chunks i c Hc Hi).
Qed.

Lemma X12_chunk_sizes_witness :
  Z.of_nat (List.length [4; 5]%nat)
  = (Z.of_nat (List.length [1; 2; 3; 4; 5; 6; 7]%nat) / 3
     + (if Z.of_nat 1 <? Z.of_nat (List.length [1; 2; 3; 4; 5; 6; 7]%nat) mod 3
        then 1 else 0))%Z.
Proof.
  apply (X12_chunk_sizes [1; 2; 3; 4; 5; 6; 7]%nat 3
           [[1; 2; 3]; [4; 5]; [6; 7]]%nat 1 [4; 5]%nat);
    [lia | reflexivity | reflexivity].
Defined.

(** X13. The sub-lists are balanced, the longer ones first: an earlier
    one is never shorter than a later one, and never longer by more than
    one element. *)
Theorem X13_chunk_balanced {A : Type} (a : list A) (n : Z)
  (chunks : list (list A)) (i j : nat) (ci cj : list A) :
  (0 < n)%Z ->
  chunk a n = Return chunks ->
  (i <= j)%nat ->
  nth_error chunks i = Some ci ->
  nth_error chunks j = Some cj ->
  (List.length cj <= List.length ci <= List.length cj + 1)%nat.
Proof.
  intros Hn Hc Hij Hi Hj.
  pose proof (chunk_sizes a n Hn chunks i ci Hc Hi) as Si.
  pose proof (chunk_sizes a n Hn chunks j cj Hc Hj) as Sj.
  destruct (Z.ltb_spec (Z.of_nat i) (Z.of_nat (List.length a) mod n));
    destruct (Z.ltb_spec (Z.of_nat j) (Z.of_nat (List.length a) mod n));
    lia.
Qed.

Lemma X13_chunk_balanced_witness :
  (List.length [6; 7]%nat <= List.length [1; 2; 3]%nat
   <= List.length [6; 7]%nat + 1)%nat.
Proof.
  apply (X13_chunk_balanced [1; 2; 3; 4; 5; 6; 7]%nat 3
           [[1; 2; 3]; [4; 5]; [6; 7]]%nat 0 2 [1; 2; 3]%nat [6; 7]%nat);
    [lia | reflexivity | lia | reflexivity | reflexivity].
Defined.

(** X14. Outside the positive numbers: [chunk(a, 0)] raises
    [ZeroDivisionError], and for a negative [n] the division succeeds,
    the range is empty and the result is the empty list, whatever [a]
    holds. *)
Theorem X14_chunk_without_parts {A : Type} (a : list A) (n : Z) :
  (n <= 0)%Z ->
  (n = 0%Z -> chunk a n = Raise (OtherException "ZeroDivisionError"))
  /\ ((n < 0)%Z -> chunk a n = Return []).
Proof.
  intros Hn. split.
  - intros ->. reflexivity.
  - intros Hneg. unfold chunk, py_divmod, py_range.
    destruct (Z.eqb_spec n 0); [lia|]. cbn [bind].
    replace (Z.to_nat n) with 0%nat by lia. reflexivity.
Qed.

Lemma X14_chunk_without_parts_witness :
  chunk [1; 2; 3]%nat (-2) = Return [].
Proof.
  apply (proj2 (X14_chunk_without_parts [1; 2; 3]%nat (-2) ltac:(lia))). lia.
Defined.

(** ** [make_progress_bar] *)

Lemma cells_S (cell : ustr) (count : nat) :
  cells cell (S count) = (cells cell count ++ cell)%list.
Proof.
  unfold cells. induction count as [|count IH]; cbn in *.
  - now rewrite app_nil_r.
  - rewrite IH at 1. now rewrite app_assoc.
Qed.

Lemma cells_length (cell : ustr) (count : nat) :
  List.length (cells cell count) = (count * List.length cell)%nat.
Proof.
  unfold cells. induction count as [|count IH]; cbn; [reflexivity|].
  now rewrite length_app, IH.
Qed.

(** The bar after [j] turns of the loop. *)
Lemma bar_loop (bar_idx : Z) (j : nat) :
  fold_left (bar_step bar_idx) (map Z.of_nat (seq 0 j)) []
  = (cells full (Nat.min j (Z.to_nat bar_idx))
     ++ cells empty (j - Nat.min j (Z.to_nat bar_idx)))%list.
Proof.
  induction j as [|j IH]; [reflexivity|].
  rewrite seq_S, map_app, fold_left_app, IH. cbn [map fold_left Nat.add].
  unfold bar_step. destruct (Z.ltb_spec (Z.of_nat j) bar_idx) as [Hlt|Hge].
  - replace (Nat.min j (Z.to_nat bar_idx)) with j by lia.
    replace (Nat.min (S j) (Z.to_nat bar_idx)) with (S j) by lia.
    replace (j - j)%nat with 0%nat by lia.
    replace (S j - S j)%nat with 0%nat by lia.
    rewrite cells_S. cbn [cells repeat concat]. now rewrite !app_nil_r.
  - replace (Nat.min (S j) (Z.to_nat bar_idx))
      with (Nat.min j (Z.to_nat bar_idx)) by lia.
    replace (S j - Nat.min j (Z.to_nat bar_idx))%nat
      with (S (j - Nat.min j (Z.to_nat bar_idx))) by lia.
    rewrite cells_S. now rewrite app_assoc.
Qed.

(** X15. Whatever index the percentage gives, the bar is [nb_char]
    cells: filled ones first, then blank ones, the number of filled ones
    being the index kept between 0 and [nb_char].  A percentage below 0
    or above 100 therefore gives an all-blank or an all-filled bar, never
    a longer one; as a filled cell is two code points, the string has
    [nb_char] plus the number of filled cells code points. *)
Theorem X15_progress_bar_shape
  (percentage : number) (nb_char bar_idx : Z) :
  bar_index percentage nb_char = Return bar_idx ->
  let width := Z.to_nat nb_char in
  let filled := Nat.min width (Z.to_nat bar_idx) in
  make_progress_bar percentage nb_char
  = Return (cells full filled ++ cells empty (width - filled))%list
  /\ List.length (cells full filled ++ cells empty (width - filled))%list
     = (width + filled)%nat.
Proof.
  intros H width filled. split.
  - unfold make_progress_bar, py_range. rewrite H. cbn [bind].
    now rewrite bar_loop.
  - rewrite length_app, !cells_length. cbn [List.length full empty].
    subst filled. lia.
Qed.

Lemma X15_progress_bar_shape_witness :
  make_progress_bar (Int 150) 4 = Return (cells full 4 ++ cells empty 0)%list
  /\ List.length (cells full 4 ++ cells empty 0)%list = 8%nat.
Proof.
  apply (X15_progress_bar_shape (Int 150) 4 6). vm_compute. reflexivity.
Defined.

Lemma default_index_exact (z : Z) :
  (0 <= z <= 100)%Z -> bar_index (Int z) 20 = Return (z / 5)%Z.
Proof.
  intros Hz.
  assert (H : default_index_is_exact (Z.to_N z) = true).
  { apply (forallb_below default_index_is_exact 101); [|lia].
    vm_compute. reflexivity. }
  unfold default_index_is_exact in H. rewrite Z2N.id in H by lia.
  destruct (bar_index (Int z) 20) as [i|e]; [|discriminate H].
  apply Z.eqb_eq in H. now subst i.
Qed.

(** X16. With the default width of 20 cells and a whole percentage from
    0 to 100, rounding in the floating-point product never costs a cell:
    the bar has exactly [percentage // 5] filled cells followed by the
    blank ones. *)
Theorem X16_default_bar_is_exact (z : Z) :
  (0 <= z <= 100)%Z ->
  make_progress_bar_default (Int z)
  = Return (cells full (Z.to_nat (z / 5))
            ++ cells empty (20 - Z.to_nat (z / 5)))%list.
Proof.
  intros Hz. unfold make_progress_bar_default, make_progress_bar, py_range.
  rewrite (default_index_exact z Hz). cbn [bind]. rewrite bar_loop.
  assert (Hq : (0 <= z / 5 <= 20)%Z).
  { split; [apply Z.div_pos; lia|].
    apply Z.div_le_upper_bound; lia. }
  replace (Nat.min (Z.to_nat 20) (Z.to_nat (z / 5))) with (Z.to_nat (z / 5))
    by lia.
  reflexivity.
Qed.

Lemma X16_default_bar_witness :
  make_progress_bar_default (Int 35)
  = Return (cells full 7 ++ cells empty 13)%list.
Proof.
  apply (X16_default_bar_is_exact 35). lia.
Defined.

(** ** [get_lang_emoji] *)

Lemma dict_get_In {V : Type} (d : list (string * V)) (key : string) (v : V) :
  dict_get d key = Some v -> In (key, v) d.
Proof.
  induction d as [|[k w] d IH]; cbn; [discriminate|].
  destruct (dict_get d key) as [v'|].
  - intros H. injection H as ->. right. now apply IH.
  - destruct (String.eqb_spec k key) as [->|]; [|discriminate].
    intros H. injection H as ->. now left.
Qed.

Lemma LANG2FLAG_items_ok : forallb item_ok LANG2FLAG = true.
Proof. vm_compute. reflexivity. Qed.

Lemma get_lang_emoji_item (lang : string) (f : ustr) :
  get_lang_emoji lang = Some f -> item_ok (lang, Some f) = true.
Proof.
  unfold get_lang_emoji.
  destruct (dict_get LANG2FLAG lang) as [v|] eqn:H; [|discriminate].
  intros ->. apply dict_get_In in H.
  exact (proj1 (forallb_forall item_ok LANG2FLAG) LANG2FLAG_items_ok _ H).
Qed.

(** X17. A flag returned by [get_lang_emoji] is always a well-formed
    flag emoji: exactly two code points, both regional indicator symbols
    (U+1F1E6 to U+1F1FF). *)
Theorem X17_flag_is_two_regional_indicators (lang : string) (f : ustr) :
  get_lang_emoji lang = Some f ->
  exists x y,
    f = [x; y]
    /\ (127462 <= x <= 127487)%N
    /\ (127462 <= y <= 127487)%N.
Proof.
  intros H. apply get_lang_emoji_item in H. unfold item_ok in H.
  apply andb_true_iff in H. destruct H as [_ H]. cbn [snd] in H.
  destruct f as [|x [|y [|z f]]]; try discriminate H.
  apply andb_true_iff in H. destruct H as [Hx Hy].
  unfold is_regional_indicator, between in Hx, Hy.
  apply andb_true_iff in Hx, Hy.
  destruct Hx as [Hx1 Hx2], Hy as [Hy1 Hy2].
  apply N.leb_le in Hx1, Hx2, Hy1, Hy2.
  exists x, y. auto.
Qed.

Lemma X17_flag_witness :
  exists x y,
    [127467; 127479]%N = [x; y]
    /\ (127462 <= x <= 127487)%N
    /\ (127462 <= y <= 127487)%N.
Proof.
  apply (X17_flag_is_two_regional_indicators "fr"). vm_compute. reflexivity.
Defined.

(** X18. The lookup is exact on the text of the code: the keys are
    written with lower-case letters and hyphens only, so a code with any
    other character (an upper-case letter, an underscore, a blank) has no
    flag, and [None] is returned rather than an error. *)
Theorem X18_only_lower_case_codes_have_a_flag (lang : string) :
  all_chars is_key_char lang = false -> get_lang_emoji lang = None.
Proof.
  intros Hk. destruct (get_lang_emoji lang) as [f|] eqn:H; [|reflexivity].
  apply get_lang_emoji_item in H. unfold item_ok in H. cbn [fst] in H.
  rewrite Hk in H. discriminate H.
Qed.

Lemma X18_only_lower_case_witness :
  get_lang_emoji "EN" = None /\ get_lang_emoji "zh_cn" = None.
Proof.
  split.
  - apply (X18_only_lower_case_codes_have_a_flag "EN"). reflexivity.
  - apply (X18_only_lower_case_codes_have_a_flag "zh_cn"). reflexivity.
Defined.
